(** * A CORS-enabled static file server: model and properties

    The program under study is [server.py]: a subclass of the standard
    library's [http.server.SimpleHTTPRequestHandler] that overrides
    [end_headers], and a module body that creates a
    [socketserver.TCPServer] on port 8000, prints one line and serves
    forever.

    The file embeds [server.py] together with the methods of
    [http.server] and [socketserver] (CPython 3.11) that it inherits or
    calls, since the behaviour of the three lines of the override is only
    visible through them.  Python [str] and [bytes] values are 8-bit
    strings: request lines are decoded as ISO-8859-1 and header lines are
    encoded as latin-1, so both maps are the identity on them. *)

From stdpp Require Import gmap strings list.
From Stdlib Require Import ZArith Ascii DecimalString Sorted.

Local Open Scope Z_scope.

(** ** Python string operations used by the library *)

Module Py.

Definition CRLF : string := String "013" (String "010" "").
Definition LF : string := String "010" "".
Definition DQUOTE : string := String (ascii_of_nat 34) "".

(** [str(n)] and the ["%d"] conversion. *)
Definition str_of_int (n : Z) : string := NilZero.string_of_int (Z.to_int n).

Fixpoint rev_onto (s acc : string) : string :=
  match s with
  | "" => acc
  | String c s' => rev_onto s' (String c acc)
  end.

Definition rev (s : string) : string := rev_onto s "".

(** [s.startswith(p)] *)
Definition startswith (s p : string) : bool := String.prefix p s.

(** [s.endswith(p)] *)
Definition endswith (s p : string) : bool := String.prefix (rev p) (rev s).

(** [str.isspace] on code points below 256. *)
Definition isspace (c : ascii) : bool :=
  let n := Z.of_nat (nat_of_ascii c) in
  ((9 <=? n) && (n <=? 13)) || ((28 <=? n) && (n <=? 32))
  || (n =? 133) || (n =? 160).

Fixpoint lstrip_by (f : ascii -> bool) (s : string) : string :=
  match s with
  | "" => ""
  | String c s' => if f c then lstrip_by f s' else s
  end.

Definition rstrip_by (f : ascii -> bool) (s : string) : string :=
  rev (lstrip_by f (rev s)).

(** [s.rstrip()] *)
Definition rstrip (s : string) : string := rstrip_by isspace s.

(** [s.rstrip('\r\n')] *)
Definition rstrip_crlf (s : string) : string :=
  rstrip_by (fun c => Ascii.eqb c "013" || Ascii.eqb c "010") s.

(** [s.lstrip('/')] *)
Definition lstrip_slash (s : string) : string :=
  lstrip_by (fun c => Ascii.eqb c "/") s.

(** [s.split()]: the words between runs of whitespace.  [cur] is the
    word being read, reversed. *)
Fixpoint split_ws_go (s cur : string) : list string :=
  match s with
  | "" => if String.eqb cur "" then [] else [rev cur]
  | String c s' =>
      if isspace c
      then (if String.eqb cur "" then split_ws_go s' ""
            else rev cur :: split_ws_go s' "")
      else split_ws_go s' (String c cur)
  end.

Definition split_ws (s : string) : list string := split_ws_go s "".

(** [s.split(sep)] for a one-character separator. *)
Fixpoint split_go (sep : ascii) (s cur : string) : list string :=
  match s with
  | "" => [rev cur]
  | String c s' =>
      if Ascii.eqb c sep then rev cur :: split_go sep s' ""
      else split_go sep s' (String c cur)
  end.

Definition split (sep : ascii) (s : string) : list string := split_go sep s "".

(** [s.split(sep, 1)]: the part before the first separator and, when
    there is one, the part after it. *)
Fixpoint split1_go (sep : ascii) (s cur : string) : string * option string :=
  match s with
  | "" => (rev cur, None)
  | String c s' =>
      if Ascii.eqb c sep then (rev cur, Some s')
      else split1_go sep s' (String c cur)
  end.

Definition split1 (sep : ascii) (s : string) : string * option string :=
  split1_go sep s "".

(** [sep.join(l)] *)
Fixpoint join (sep : string) (l : list string) : string :=
  match l with
  | [] => ""
  | [x] => x
  | x :: l' => x +:+ sep +:+ join sep l'
  end.

(** [b"".join(l)] *)
Definition concat (l : list string) : string := foldr String.append "" l.

(** [str.lower] on code points below 256: the ASCII capitals and the
    Latin-1 capitals other than the multiplication sign. *)
Definition lower_char (c : ascii) : ascii :=
  let n := Z.of_nat (nat_of_ascii c) in
  if ((65 <=? n) && (n <=? 90))
     || ((192 <=? n) && (n <=? 222) && negb (n =? 215))
  then ascii_of_nat (Z.to_nat (n + 32)) else c.

Fixpoint lower (s : string) : string :=
  match s with
  | "" => ""
  | String c s' => String (lower_char c) (lower s')
  end.

Definition digit (c : ascii) : option Z :=
  let n := Z.of_nat (nat_of_ascii c) in
  if (48 <=? n) && (n <=? 57) then Some (n - 48) else None.

(** The digits of [int(s)] after the sign: decimal digits, single
    underscores allowed between two digits.  [prev] tells whether the
    previous character was a digit. *)
Fixpoint int_digits (s : string) (prev : bool) (acc : Z) : option Z :=
  match s with
  | "" => if prev then Some acc else None
  | String c s' =>
      match digit c with
      | Some d => int_digits s' true (10 * acc + d)
      | None =>
          if Ascii.eqb c "_" && prev then int_digits s' false acc else None
      end
  end.

Definition count_digits (s : string) : Z :=
  Z.of_nat (List.length (filter (fun c => is_Some (digit c)) (String.list_ascii_of_string s))).

(** [int(s)] for a string without whitespace; [None] is [ValueError].
    More than 4300 digits are refused ([sys.int_info.default_max_str_digits]). *)
Definition int_of_str (s : string) : option Z :=
  if 4300 <? count_digits s then None
  else match s with
       | String "+" s' => int_digits s' false 0
       | String "-" s' => Z.opp <$> int_digits s' false 0
       | _ => int_digits s false 0
       end.

(** [html.escape(s, quote=False)] *)
Fixpoint html_escape (s : string) : string :=
  match s with
  | "" => ""
  | String c s' =>
      (if Ascii.eqb c "&" then "&amp;"
       else if Ascii.eqb c "<" then "&lt;"
       else if Ascii.eqb c ">" then "&gt;"
       else String c "") +:+ html_escape s'
  end.

(** Lexicographic order on pairs of integers, [a >= b] on tuples. *)
Definition pair_geb (a b : Z * Z) : bool :=
  (b.1 <? a.1) || ((a.1 =? b.1) && (b.2 <=? a.2)).

(** [a >= b] on strings. *)
Definition str_geb (a b : string) : bool := String.leb b a.

(** [sub in s] *)
Definition contains (s sub : string) : bool :=
  match String.index 0 sub s with Some _ => true | None => false end.

End Py.

(** Every character of [s] satisfies [f]. *)
Fixpoint str_all (f : ascii -> bool) (s : string) : bool :=
  match s with
  | "" => true
  | String c s' => f c && str_all f s'
  end.

(** ** Exceptions and the handler monad *)

(** The exceptions that can reach the code modelled here.  [is_Exception]
    tells the subclasses of [Exception] from the other subclasses of
    [BaseException], which [except Exception] lets through. *)
Inductive exn :=
| OSError (errno : string)
| AttributeError
| ValueError
| UnicodeEncodeError
| KeyboardInterrupt
| SystemExit.

Definition is_Exception (e : exn) : bool :=
  match e with
  | OSError _ | AttributeError | ValueError | UnicodeEncodeError => true
  | KeyboardInterrupt | SystemExit => false
  end.

Inductive result (A : Type) :=
| Ok (a : A)
| Raise (e : exn).
Arguments Ok {A} a.
Arguments Raise {A} e.

(** ** The environment of a request handler *)

(** What [http.client.parse_headers] makes of the header block that
    follows a request line. *)
Inductive headers_result :=
| Headers (hs : list (string * string))
| LineTooLong
| TooManyHeaders.

(** One request as it arrives on a connection: the line that
    [rfile.readline(65537)] returns and the header block behind it. *)
Record request_input := {
  in_line : string;
  in_headers : headers_result
}.

(** An open file: the fields of [os.fstat] that [send_head] reads, and what
    reading the file to its end gives ([None]: the read raises [OSError]). *)
Record file := {
  st_size : Z;
  st_mtime : Z;
  f_read : option string
}.

(** How [open(path, 'rb')] fails: with an [OSError] (no such file,
    permission denied, ...) or, for a name that cannot be passed to the
    system, with [ValueError] (a NUL byte in the name) or its subclass
    [UnicodeEncodeError] (a name that the file system encoding cannot
    encode).  [send_head] catches the first only. *)
Inductive open_error :=
| NotOpened (errno : string)
| BadName
| Unencodable.

Definition exn_of_open_error (e : open_error) : exn :=
  match e with
  | NotOpened errno => OSError errno
  | BadName => ValueError
  | Unencodable => UnicodeEncodeError
  end.

(** The file system as the handler observes it, by the calls it makes:
    [open_rb] is [None] where [open] raises, and [open_err] tells what it
    raises there; [listdir] is [None] where [os.listdir] raises
    [OSError]. *)
Record filesystem := {
  isdir : string -> bool;
  isfile : string -> bool;
  islink : string -> bool;
  open_rb : string -> option file;
  open_err : string -> open_error;
  listdir : string -> option (list string)
}.

(** Functions of the standard library (and values of the interpreter)
    that the handler calls and that are not modelled: every theorem holds
    for all of them.  [unquote_strict] is
    [urllib.parse.unquote(s, errors='surrogatepass')], [None] when it
    raises [UnicodeDecodeError], and [unquote] is [urllib.parse.unquote(s)],
    which replaces what it cannot decode; [encode_fs] is
    [s.encode(sys.getfilesystemencoding(), 'surrogateescape')], [None]
    when it raises [UnicodeEncodeError]. *)
Record Lib := {
  getcwd : string;
  unquote_strict : string -> option string;
  unquote : string -> string;
  quote : string -> string;
  normpath : string -> string;
  urlsplit : string -> string * string * string * string * string;
  urlunsplit : string * string * string * string * string -> string;
  splitext : string -> string * string;
  mimetypes_guess_type : string -> option string;
  repr : string -> string;
  formatdate : Z -> string;
  parsedate_utc : string -> option Z;
  error_page : Z -> string -> string -> string;
  sys_version : string;
  getfilesystemencoding : string;
  encode_fs : string -> option string;
  log_line : string -> Z -> string -> string
}.

(** A write to the client: [Head] by [flush_headers], the head of a
    response, and [Body] by any other call of [wfile.write]. *)
Inductive write :=
| Head (data : string)
| Body (data : string).

(** The instance attributes of a request handler, with the two streams
    it writes to.  [wfile] lists the writes to the client, oldest first,
    and [stderr] the lines logged. *)
Record handler := {
  rfile : list request_input;
  client_address : string;
  time : Z;
  raw_requestline : string;
  requestline : string;
  request_version : string;
  command : option string;
  path : string;
  headers : list (string * string);
  close_connection : bool;
  _headers_buffer : option (list string);
  wfile : list write;
  stderr : list string
}.

Definition M (A : Type) : Type := handler -> result A * handler.

Definition ret {A} (a : A) : M A := fun h => (Ok a, h).

Definition bind {A B} (m : M A) (k : A -> M B) : M B :=
  fun h => match m h with
           | (Ok a, h') => k a h'
           | (Raise e, h') => (Raise e, h')
           end.

Definition raise {A} (e : exn) : M A := fun h => (Raise e, h).

Definition get : M handler := fun h => (Ok h, h).

Definition modify (f : handler -> handler) : M unit := fun h => (Ok tt, f h).

Declare Scope py_scope.
Delimit Scope py_scope with py.
Notation "x <- m ;; k" := (bind m (fun x => k))
  (at level 100, m at next level, right associativity) : py_scope.
Notation "m ;; k" := (bind m (fun _ => k))
  (at level 100, right associativity) : py_scope.

Definition set_rfile v h := {| rfile := v; client_address := client_address h; time := time h; raw_requestline := raw_requestline h; requestline := requestline h; request_version := request_version h; command := command h; path := path h; headers := headers h; close_connection := close_connection h; _headers_buffer := _headers_buffer h; wfile := wfile h; stderr := stderr h |}.
Definition set_raw_requestline v h := {| rfile := rfile h; client_address := client_address h; time := time h; raw_requestline := v; requestline := requestline h; request_version := request_version h; command := command h; path := path h; headers := headers h; close_connection := close_connection h; _headers_buffer := _headers_buffer h; wfile := wfile h; stderr := stderr h |}.
Definition set_requestline v h := {| rfile := rfile h; client_address := client_address h; time := time h; raw_requestline := raw_requestline h; requestline := v; request_version := request_version h; command := command h; path := path h; headers := headers h; close_connection := close_connection h; _headers_buffer := _headers_buffer h; wfile := wfile h; stderr := stderr h |}.
Definition set_request_version v h := {| rfile := rfile h; client_address := client_address h; time := time h; raw_requestline := raw_requestline h; requestline := requestline h; request_version := v; command := command h; path := path h; headers := headers h; close_connection := close_connection h; _headers_buffer := _headers_buffer h; wfile := wfile h; stderr := stderr h |}.
Definition set_command v h := {| rfile := rfile h; client_address := client_address h; time := time h; raw_requestline := raw_requestline h; requestline := requestline h; request_version := request_version h; command := v; path := path h; headers := headers h; close_connection := close_connection h; _headers_buffer := _headers_buffer h; wfile := wfile h; stderr := stderr h |}.
Definition set_path v h := {| rfile := rfile h; client_address := client_address h; time := time h; raw_requestline := raw_requestline h; requestline := requestline h; request_version := request_version h; command := command h; path := v; headers := headers h; close_connection := close_connection h; _headers_buffer := _headers_buffer h; wfile := wfile h; stderr := stderr h |}.
Definition set_headers v h := {| rfile := rfile h; client_address := client_address h; time := time h; raw_requestline := raw_requestline h; requestline := requestline h; request_version := request_version h; command := command h; path := path h; headers := v; close_connection := close_connection h; _headers_buffer := _headers_buffer h; wfile := wfile h; stderr := stderr h |}.
Definition set_close_connection v h := {| rfile := rfile h; client_address := client_address h; time := time h; raw_requestline := raw_requestline h; requestline := requestline h; request_version := request_version h; command := command h; path := path h; headers := headers h; close_connection := v; _headers_buffer := _headers_buffer h; wfile := wfile h; stderr := stderr h |}.
Definition set_headers_buffer v h := {| rfile := rfile h; client_address := client_address h; time := time h; raw_requestline := raw_requestline h; requestline := requestline h; request_version := request_version h; command := command h; path := path h; headers := headers h; close_connection := close_connection h; _headers_buffer := v; wfile := wfile h; stderr := stderr h |}.
Definition set_wfile v h := {| rfile := rfile h; client_address := client_address h; time := time h; raw_requestline := raw_requestline h; requestline := requestline h; request_version := request_version h; command := command h; path := path h; headers := headers h; close_connection := close_connection h; _headers_buffer := _headers_buffer h; wfile := v; stderr := stderr h |}.
Definition set_stderr v h := {| rfile := rfile h; client_address := client_address h; time := time h; raw_requestline := raw_requestline h; requestline := requestline h; request_version := request_version h; command := command h; path := path h; headers := headers h; close_connection := close_connection h; _headers_buffer := _headers_buffer h; wfile := wfile h; stderr := v |}.

Local Open Scope py_scope.

(** ** [http.server.BaseHTTPRequestHandler] *)

Module BaseHTTPRequestHandler.
Section methods.
Context (L : Lib).

(** [self.end_headers()] as the class of [self] defines it: the methods
    of the base class reach the override through it. *)
Variable self_end_headers : M unit.

Definition protocol_version : string := "HTTP/1.0".
Definition default_request_version : string := "HTTP/0.9".
Definition server_version : string := "SimpleHTTP/0.6".
Definition error_content_type : string := "text/html;charset=utf-8".

(** The entries of [responses] (from [http.HTTPStatus]) for the codes
    that this handler sends. *)
Definition responses (code : Z) : option (string * string) :=
  if code =? 100 then Some ("Continue", "Request received, please continue")
  else if code =? 200 then Some ("OK", "Request fulfilled, document follows")
  else if code =? 301 then
    Some ("Moved Permanently", "Object moved permanently -- see URI list")
  else if code =? 304 then
    Some ("Not Modified", "Document has not changed since given time")
  else if code =? 400 then
    Some ("Bad Request", "Bad request syntax or unsupported method")
  else if code =? 404 then Some ("Not Found", "Nothing matches the given URI")
  else if code =? 414 then Some ("Request-URI Too Long", "URI is too long")
  else if code =? 431 then
    Some ("Request Header Fields Too Large",
          "The server is unwilling to process the request because its header fields are too large")
  else if code =? 501 then
    Some ("Not Implemented", "Server does not support this operation")
  else if code =? 505 then
    Some ("HTTP Version Not Supported", "Cannot fulfill request")
  else None.

Definition log_message (message : string) : M unit :=
  modify (fun h =>
    set_stderr (stderr h ++ [log_line L (client_address h) (time h) message]) h).

Definition log_request (code : Z) : M unit :=
  h <- get;;
  log_message (Py.DQUOTE +:+ requestline h +:+ Py.DQUOTE +:+ " "
               +:+ Py.str_of_int code +:+ " -").

Definition log_error (code : Z) (message : string) : M unit :=
  log_message ("code " +:+ Py.str_of_int code +:+ ", message " +:+ message).

Definition version_string : string := server_version +:+ " " +:+ sys_version L.

Definition date_time_string (timestamp : Z) : string := formatdate L timestamp.

(** The line that [send_response_only] appends. *)
Definition status_line (code : Z) (message : string) : string :=
  protocol_version +:+ " " +:+ Py.str_of_int code +:+ " " +:+ message +:+ Py.CRLF.

(** The line that [send_header] appends. *)
Definition header_line (keyword value : string) : string :=
  keyword +:+ ": " +:+ value +:+ Py.CRLF.

Definition buffer_append (line : string) : M unit :=
  modify (fun h =>
    set_headers_buffer (Some (default [] (_headers_buffer h) ++ [line])) h).

(** The reason phrase of [send_response_only]: the message given, or
    else the short entry of [responses] for the code. *)
Definition reason (code : Z) (message : option string) : string :=
  match message with
  | Some m => m
  | None => match responses code with Some r => r.1 | None => "" end
  end.

Definition send_response_only (code : Z) (message : option string) : M unit :=
  h <- get;;
  if negb (String.eqb (request_version h) "HTTP/0.9") then
    buffer_append (status_line code (reason code message))
  else ret tt.

Definition send_header (keyword value : string) : M unit :=
  h <- get;;
  (if negb (String.eqb (request_version h) "HTTP/0.9")
   then buffer_append (header_line keyword value) else ret tt);;
  if String.eqb (Py.lower keyword) "connection" then
    if String.eqb (Py.lower value) "close"
    then modify (set_close_connection true)
    else if String.eqb (Py.lower value) "keep-alive"
    then modify (set_close_connection false)
    else ret tt
  else ret tt.

Definition flush_headers : M unit :=
  h <- get;;
  match _headers_buffer h with
  | Some buf =>
      modify (fun h => set_headers_buffer (Some [])
                         (set_wfile (wfile h ++ [Head (Py.concat buf)]) h))
  | None => ret tt
  end.

(** [BaseHTTPRequestHandler.end_headers]: the blank line, then the
    flush.  Appending to a buffer that no method has created yet is an
    [AttributeError]. *)
Definition end_headers : M unit :=
  h <- get;;
  if negb (String.eqb (request_version h) "HTTP/0.9") then
    match _headers_buffer h with
    | Some buf =>
        modify (set_headers_buffer (Some (buf ++ [Py.CRLF])));;
        flush_headers
    | None => raise AttributeError
    end
  else ret tt.

Definition send_response (code : Z) (message : option string) : M unit :=
  log_request code;;
  send_response_only code message;;
  send_header "Server" version_string;;
  h <- get;;
  send_header "Date" (date_time_string (time h)).

Definition wfile_write (data : string) : M unit :=
  modify (fun h => set_wfile (wfile h ++ [Body data]) h).

Definition send_error (code : Z) (message explain : option string) : M unit :=
  let '(shortmsg, longmsg) := default ("???", "???") (responses code) in
  let message := default shortmsg message in
  let explain := default longmsg explain in
  log_error code message;;
  send_response code (Some message);;
  send_header "Connection" "close";;
  body <- (if (200 <=? code)
              && negb ((code =? 204) || (code =? 205) || (code =? 304))
           then
             let body := error_page L code message explain in
             send_header "Content-Type" error_content_type;;
             send_header "Content-Length"
               (Py.str_of_int (Z.of_nat (String.length body)));;
             ret (Some body)
           else ret None);;
  self_end_headers;;
  h <- get;;
  match body with
  | Some b =>
      if negb (bool_decide (command h = Some "HEAD")) && negb (String.eqb b "")
      then wfile_write b else ret tt
  | None => ret tt
  end.

Definition handle_expect_100 : M bool :=
  send_response_only 100 None;;
  self_end_headers;;
  ret true.

(** [self.headers.get(name, "")]: the first header of that name,
    compared without case. *)
Fixpoint headers_find (name : string) (hs : list (string * string)) : option string :=
  match hs with
  | [] => None
  | (k, v) :: hs' =>
      if String.eqb (Py.lower k) (Py.lower name) then Some v
      else headers_find name hs'
  end.

Definition headers_get (name : string) (hs : list (string * string)) : string :=
  default "" (headers_find name hs).

(** The [try] block of [parse_request] that reads the version number;
    [None] is the [ValueError] or [IndexError] that the block catches.
    The result is the pair of integers and [base_version_number]. *)
Definition parse_version (version : string) : option (Z * Z * string) :=
  if negb (Py.startswith version "HTTP/") then None
  else
    match (Py.split1 "/" version).2 with
    | None => None
    | Some base_version_number =>
        match Py.split "." base_version_number with
        | [a; b] =>
            match Py.int_of_str a, Py.int_of_str b with
            | Some x, Some y => Some (x, y, base_version_number)
            | _, _ => None
            end
        | _ => None
        end
    end.

(** [self.path] for the target of a request line: [parse_request]
    reduces two or more leading slashes to one (gh-87389). *)
Definition path_of_target (target : string) : string :=
  if Py.startswith target "//" then "/" +:+ Py.lstrip_slash target else target.

(** The part of [parse_request] after the request line is accepted:
    the header block and the [Connection] and [Expect] directives. *)
Definition parse_request_headers (hdrs : headers_result) : M bool :=
  match hdrs with
  | LineTooLong =>
      send_error 431 (Some "Line too long") (Some "got more than 65536 bytes when reading header line");;
      ret false
  | TooManyHeaders =>
      send_error 431 (Some "Too many headers") (Some "got more than 100 headers");;
      ret false
  | Headers hs =>
      modify (set_headers hs);;
      let conntype := headers_get "Connection" hs in
      (if String.eqb (Py.lower conntype) "close"
       then modify (set_close_connection true)
       else if String.eqb (Py.lower conntype) "keep-alive"
               && Py.str_geb protocol_version "HTTP/1.1"
       then modify (set_close_connection false)
       else ret tt);;
      let expect := headers_get "Expect" hs in
      h <- get;;
      if String.eqb (Py.lower expect) "100-continue"
         && Py.str_geb protocol_version "HTTP/1.1"
         && Py.str_geb (request_version h) "HTTP/1.1"
      then
        ok <- handle_expect_100;;
        if negb ok then ret false else ret true
      else ret true
  end.

Definition parse_request (hdrs : headers_result) : M bool :=
  modify (set_command None);;
  modify (set_request_version default_request_version);;
  modify (set_close_connection true);;
  h <- get;;
  let requestline := Py.rstrip_crlf (raw_requestline h) in
  modify (set_requestline requestline);;
  let words := Py.split_ws requestline in
  if (List.length words =? 0)%nat then ret false
  else
    proceed <-
      (if (3 <=? List.length words)%nat then
         let version := List.last words "" in
         match parse_version version with
         | None =>
             send_error 400
               (Some ("Bad request version (" +:+ repr L version +:+ ")")) None;;
             ret false
         | Some (major, minor, base_version_number) =>
             (if Py.pair_geb (major, minor) (1, 1)
                 && Py.str_geb protocol_version "HTTP/1.1"
              then modify (set_close_connection false) else ret tt);;
             if Py.pair_geb (major, minor) (2, 0) then
               send_error 505
                 (Some ("Invalid HTTP version (" +:+ base_version_number +:+ ")"))
                 None;;
               ret false
             else
               modify (set_request_version version);;
               ret true
         end
       else ret true);;
    if negb proceed then ret false
    else
      match words with
      | command :: path :: rest =>
          if negb (List.length words <=? 3)%nat then
            send_error 400
              (Some ("Bad request syntax (" +:+ repr L requestline +:+ ")")) None;;
            ret false
          else
            proceed <-
              (match rest with
               | [] =>
                   modify (set_close_connection true);;
                   if negb (String.eqb command "GET") then
                     send_error 400
                       (Some ("Bad HTTP/0.9 request type (" +:+ repr L command +:+ ")"))
                       None;;
                     ret false
                   else ret true
               | _ => ret true
               end);;
            if negb proceed then ret false
            else
              modify (set_command (Some command));;
              modify (set_path (path_of_target path));;
              parse_request_headers hdrs
      | _ =>
          send_error 400
            (Some ("Bad request syntax (" +:+ repr L requestline +:+ ")")) None;;
          ret false
      end.

(** [rfile.readline(65537)] together with the header block that
    [parse_request] will find behind the line; at end of input the line
    is empty. *)
Definition readline : M request_input :=
  h <- get;;
  match rfile h with
  | [] => ret {| in_line := ""; in_headers := Headers [] |}
  | r :: rest => modify (set_rfile rest);; ret r
  end.

(** [handle_one_request], given the methods [do_GET] and [do_HEAD] of
    the class of [self]: these are the only attributes of the handler
    whose name starts with [do_].  No time-out is set on the connection
    ([StreamRequestHandler.timeout] is [None]), so the [TimeoutError]
    clause has nothing to catch. *)
Definition handle_one_request (do_GET do_HEAD : M unit) : M unit :=
  r <- readline;;
  modify (set_raw_requestline (in_line r));;
  if 65536 <? Z.of_nat (String.length (in_line r)) then
    modify (set_requestline "");;
    modify (set_request_version "");;
    modify (set_command (Some ""));;
    send_error 414 None None
  else if String.eqb (in_line r) "" then
    modify (set_close_connection true)
  else
    ok <- parse_request (in_headers r);;
    if negb ok then ret tt
    else
      h <- get;;
      let command := default "" (command h) in
      if String.eqb command "GET" then do_GET
      else if String.eqb command "HEAD" then do_HEAD
      else
        send_error 501
          (Some ("Unsupported method (" +:+ repr L command +:+ ")")) None.

(** The [while not self.close_connection] loop of [handle]; each turn
    reads one request, so the requests still to be read bound it. *)
Fixpoint handle_loop (do_GET do_HEAD : M unit) (fuel : nat) : M unit :=
  match fuel with
  | O => ret tt
  | S fuel' =>
      h <- get;;
      if close_connection h then ret tt
      else handle_one_request do_GET do_HEAD;;
           handle_loop do_GET do_HEAD fuel'
  end.

Definition handle (do_GET do_HEAD : M unit) : M unit :=
  modify (set_close_connection true);;
  handle_one_request do_GET do_HEAD;;
  h <- get;;
  handle_loop do_GET do_HEAD (S (List.length (rfile h))).

End methods.
End BaseHTTPRequestHandler.

(** ** [http.server.SimpleHTTPRequestHandler] *)

Module SimpleHTTPRequestHandler.
Section methods.
Context (L : Lib) (fs : filesystem).
Variable self_end_headers : M unit.

Local Abbreviation send_response := (BaseHTTPRequestHandler.send_response L).
Local Abbreviation send_header := BaseHTTPRequestHandler.send_header.
Local Abbreviation send_error :=
  (BaseHTTPRequestHandler.send_error L self_end_headers).

(** [self.path] *)
Definition self_path (h : handler) : string := path h.

(** [posixpath.join(a, b)] *)
Definition path_join (a b : string) : string :=
  if Py.startswith b "/" then b
  else if String.eqb a "" || Py.endswith a "/" then a +:+ b
  else a +:+ "/" +:+ b.

(** [posixpath.dirname(p)] *)
Definition dirname (p : string) : string :=
  let head :=
    Py.rev (Py.lstrip_by (fun c => negb (Ascii.eqb c "/")) (Py.rev p)) in
  if negb (String.eqb head "") && negb (String.eqb (Py.lstrip_slash head) "")
  then Py.rstrip_by (fun c => Ascii.eqb c "/") head
  else head.

(** The loop of [translate_path] over the components of the path. *)
Fixpoint translate_words (path : string) (words : list string) : string :=
  match words with
  | [] => path
  | word :: words' =>
      if negb (String.eqb (dirname word) "")
         || String.eqb word "." || String.eqb word ".."
      then translate_words path words'
      else translate_words (path_join path word) words'
  end.

Definition translate_path (path : string) : string :=
  let path := (Py.split1 "?" path).1 in
  let path := (Py.split1 "#" path).1 in
  let trailing_slash := Py.endswith (Py.rstrip path) "/" in
  let path := default (unquote L path) (unquote_strict L path) in
  let path := normpath L path in
  let words := Py.split "/" path in
  let words := filter (fun w => negb (String.eqb w "")) words in
  let path := translate_words (getcwd L) words in
  if trailing_slash then path +:+ "/" else path.

Definition extensions_map (ext : string) : option string :=
  if String.eqb ext ".gz" then Some "application/gzip"
  else if String.eqb ext ".Z" then Some "application/octet-stream"
  else if String.eqb ext ".bz2" then Some "application/x-bzip2"
  else if String.eqb ext ".xz" then Some "application/x-xz"
  else None.

Definition guess_type (path : string) : string :=
  let ext := (splitext L path).2 in
  match extensions_map ext with
  | Some t => t
  | None =>
      match extensions_map (Py.lower ext) with
      | Some t => t
      | None =>
          match mimetypes_guess_type L path with
          | Some guess =>
              if String.eqb guess "" then "application/octet-stream" else guess
          | None => "application/octet-stream"
          end
      end
  end.

(** [list.sort(key=lambda a: a.lower())]: a stable sort. *)
Fixpoint sort_insert (x : string) (l : list string) : list string :=
  match l with
  | [] => [x]
  | y :: l' =>
      if String.leb (Py.lower x) (Py.lower y) then x :: l
      else y :: sort_insert x l'
  end.

Definition sort_lower (l : list string) : list string := foldr sort_insert [] l.

(** One item of the listing, for the entry [name] of the directory [path]. *)
Definition listing_item (path name : string) : string :=
  let fullname := path_join path name in
  let displayname := if isdir fs fullname then name +:+ "/" else name in
  let linkname := if isdir fs fullname then name +:+ "/" else name in
  let displayname := if islink fs fullname then name +:+ "@" else displayname in
  "<li><a href=" +:+ Py.DQUOTE +:+ quote L linkname +:+ Py.DQUOTE +:+ ">"
    +:+ Py.html_escape displayname +:+ "</a></li>".

(** The page that [list_directory] builds from the sorted entries,
    before it is encoded.  The title is the unquoted path of the request
    or, when that cannot be decoded, the unquoted name of the
    directory. *)
Definition listing_page (self_path path : string) (names : list string) : string :=
  let displaypath :=
    Py.html_escape (default (unquote L path) (unquote_strict L self_path)) in
  let enc := getfilesystemencoding L in
  let title := "Directory listing for " +:+ displaypath in
  let r :=
    ["<!DOCTYPE HTML>";
     "<html lang=" +:+ Py.DQUOTE +:+ "en" +:+ Py.DQUOTE +:+ ">";
     "<head>";
     "<meta charset=" +:+ Py.DQUOTE +:+ enc +:+ Py.DQUOTE +:+ ">";
     "<title>" +:+ title +:+ "</title>" +:+ Py.LF +:+ "</head>";
     "<body>" +:+ Py.LF +:+ "<h1>" +:+ title +:+ "</h1>";
     "<hr>" +:+ Py.LF +:+ "<ul>"]
    ++ map (listing_item path) names
    ++ ["</ul>" +:+ Py.LF +:+ "<hr>" +:+ Py.LF +:+ "</body>" +:+ Py.LF
          +:+ "</html>" +:+ Py.LF] in
  Py.join Py.LF r.

(** [list_directory]; the result is the content of the stream to copy,
    if any.  Encoding the page raises [UnicodeEncodeError] before
    anything is sent. *)
Definition list_directory (path : string) : M (option (option string)) :=
  match listdir fs path with
  | None =>
      send_error 404 (Some "No permission to list directory") None;;
      ret None
  | Some list =>
      h <- get;;
      match encode_fs L (listing_page (self_path h) path (sort_lower list)) with
      | None => raise UnicodeEncodeError
      | Some encoded =>
          send_response 200 None;;
          send_header "Content-type"
            ("text/html; charset=" +:+ getfilesystemencoding L);;
          send_header "Content-Length"
            (Py.str_of_int (Z.of_nat (String.length encoded)));;
          self_end_headers;;
          ret (Some (Some encoded))
      end
  end.

(** The test on [If-Modified-Since] in [send_head]: the time the header
    carries when it is well formed and in UTC (or without a zone), and
    not overruled by [If-None-Match]. *)
Definition if_modified_since (hs : list (string * string)) : option Z :=
  match BaseHTTPRequestHandler.headers_find "If-Modified-Since" hs,
        BaseHTTPRequestHandler.headers_find "If-None-Match" hs with
  | Some v, None => parsedate_utc L v
  | _, _ => None
  end.

(** [send_head]: the response head.  The result is [None] when the
    caller has nothing to copy and otherwise the content of the stream
    to copy, [Some None] standing for a file whose read fails.  Of the
    failures of [open] only [OSError] is caught. *)
Definition send_head : M (option (option string)) :=
  h <- get;;
  let path := translate_path (self_path h) in
  let serve (path : string) : M (option (option string)) :=
    let ctype := guess_type path in
    if Py.endswith path "/" then
      send_error 404 (Some "File not found") None;;
      ret None
    else
      match open_rb fs path with
      | None =>
          match open_err fs path with
          | NotOpened _ =>
              send_error 404 (Some "File not found") None;;
              ret None
          | e => raise (exn_of_open_error e)
          end
      | Some f =>
          match if_modified_since (headers h) with
          | Some ims =>
              if st_mtime f <=? ims then
                send_response 304 None;;
                self_end_headers;;
                ret None
              else
                send_response 200 None;;
                send_header "Content-type" ctype;;
                send_header "Content-Length" (Py.str_of_int (st_size f));;
                send_header "Last-Modified"
                  (BaseHTTPRequestHandler.date_time_string L (st_mtime f));;
                self_end_headers;;
                ret (Some (f_read f))
          | None =>
              send_response 200 None;;
              send_header "Content-type" ctype;;
              send_header "Content-Length" (Py.str_of_int (st_size f));;
              send_header "Last-Modified"
                (BaseHTTPRequestHandler.date_time_string L (st_mtime f));;
              self_end_headers;;
              ret (Some (f_read f))
          end
      end in
  if isdir fs path then
    let parts := urlsplit L (self_path h) in
    let '(scheme, netloc, ppath, query, fragment) := parts in
    if negb (Py.endswith ppath "/") then
      send_response 301 None;;
      let new_url := urlunsplit L (scheme, netloc, ppath +:+ "/", query, fragment) in
      send_header "Location" new_url;;
      send_header "Content-Length" "0";;
      self_end_headers;;
      ret None
    else if isfile fs (path_join path "index.html")
    then serve (path_join path "index.html")
    else if isfile fs (path_join path "index.htm")
    then serve (path_join path "index.htm")
    else list_directory path
  else serve path.

(** [copyfile]: [shutil.copyfileobj] writes what it reads; the blocks
    it copies are taken as one write, and nothing is written for an
    empty stream. *)
Definition copyfile (source : option string) : M unit :=
  match source with
  | None => raise (OSError "EIO")
  | Some data =>
      if String.eqb data "" then ret tt
      else BaseHTTPRequestHandler.wfile_write data
  end.

Definition do_GET : M unit :=
  f <- send_head;;
  match f with
  | Some source => copyfile source
  | None => ret tt
  end.

Definition do_HEAD : M unit :=
  f <- send_head;;
  ret tt.

Definition handle : M unit :=
  BaseHTTPRequestHandler.handle L self_end_headers do_GET do_HEAD.

End methods.
End SimpleHTTPRequestHandler.

(** ** [server.py]: the request handler *)

Module CORSRequestHandler.

(** [CORSRequestHandler.end_headers]: the two headers, then the method
    of the base class. *)
Definition end_headers : M unit :=
  BaseHTTPRequestHandler.send_header "Access-Control-Allow-Origin" "*";;
  BaseHTTPRequestHandler.send_header "Access-Control-Allow-Methods" "GET";;
  BaseHTTPRequestHandler.end_headers.

(** The inherited methods, with [self.end_headers] bound to the
    override. *)
Definition send_error (L : Lib) := BaseHTTPRequestHandler.send_error L end_headers.
Definition send_head (L : Lib) (fs : filesystem) :=
  SimpleHTTPRequestHandler.send_head L fs end_headers.
Definition do_GET (L : Lib) (fs : filesystem) :=
  SimpleHTTPRequestHandler.do_GET L fs end_headers.
Definition do_HEAD (L : Lib) (fs : filesystem) :=
  SimpleHTTPRequestHandler.do_HEAD L fs end_headers.
Definition handle_one_request (L : Lib) (fs : filesystem) :=
  BaseHTTPRequestHandler.handle_one_request L end_headers (do_GET L fs) (do_HEAD L fs).
Definition handle (L : Lib) (fs : filesystem) :=
  SimpleHTTPRequestHandler.handle L fs end_headers.

End CORSRequestHandler.

(** ** The operating system, as far as the program observes it *)

Inductive address_family := AF_INET | AF_INET6 | AF_UNIX.
Inductive socket_type := SOCK_STREAM | SOCK_DGRAM.

Inductive sock_state :=
| Fresh
| Bound (host : string) (port : Z)
| Listening (host : string) (port : Z)
| Closed.

Record sock := {
  family : address_family;
  type : socket_type;
  state : sock_state
}.

Global Instance address_family_eq_dec : EqDecision address_family.
Proof. solve_decision. Defined.
Global Instance socket_type_eq_dec : EqDecision socket_type.
Proof. solve_decision. Defined.

(** The sockets of all processes of the machine, by descriptor, and the
    reasons other than a clash of addresses for which the system refuses
    to bind an address (the error number, as for a port that needs a
    privilege the process lacks). *)
Record machine := {
  sockets : list sock;
  refuse_bind : string -> Z -> option string
}.

(** The system calls and writes of a process, in the order it makes them. *)
Inductive event :=
| EvSocket (fd : nat) (af : address_family) (ty : socket_type)
| EvBind (fd : nat) (host : string) (port : Z)
| EvListen (fd : nat) (backlog : Z)
| EvPrint (line : string)
| EvSelect
| EvAccept (client : string)
| EvReply (client : string) (data : list write)
| EvShutdown (client : string)
| EvClose (fd : nat).

(** A process: the machine it runs on, what it has written to its two
    output streams, and its events so far. *)
Record proc := {
  sys : machine;
  stdout : list string;
  p_stderr : list string;
  log : list event
}.

(** A process that starts on machine [m]. *)
Definition spawn (m : machine) : proc :=
  {| sys := m; stdout := []; p_stderr := []; log := [] |}.

Definition set_sockets (ss : list sock) (p : proc) : proc :=
  {| sys := {| sockets := ss; refuse_bind := refuse_bind (sys p) |};
     stdout := stdout p; p_stderr := p_stderr p; log := log p |}.

Definition emit (e : event) (p : proc) : proc :=
  {| sys := sys p; stdout := stdout p; p_stderr := p_stderr p; log := log p ++ [e] |}.

Definition set_state (st : sock_state) (s : sock) : sock :=
  {| family := family s; type := type s; state := st |}.

(** The empty host and [0.0.0.0] name every interface of the machine. *)
Definition is_wildcard (host : string) : bool :=
  String.eqb host "" || String.eqb host "0.0.0.0".

(** Socket [s] holds an address that clashes with [(host, port)] for a
    socket of family [af] and type [ty]. *)
Definition clashes (af : address_family) (ty : socket_type)
    (host : string) (port : Z) (s : sock) : bool :=
  bool_decide (family s = af) && bool_decide (type s = ty) &&
  match state s with
  | Bound h p | Listening h p =>
      (p =? port) && (is_wildcard h || is_wildcard host || String.eqb h host)
  | Fresh | Closed => false
  end.

(** [socket.socket(af, ty)]: a fresh descriptor. *)
Definition os_socket (af : address_family) (ty : socket_type) (p : proc) : nat * proc :=
  let fd := List.length (sockets (sys p)) in
  (fd, emit (EvSocket fd af ty)
         (set_sockets (sockets (sys p) ++ [{| family := af; type := ty; state := Fresh |}]) p)).

(** [sock.bind((host, port))] without [SO_REUSEADDR] or [SO_REUSEPORT]:
    [EADDRINUSE] when another socket holds a clashing address. *)
Definition os_bind (fd : nat) (host : string) (port : Z) (p : proc) : result unit * proc :=
  let p := emit (EvBind fd host port) p in
  match sockets (sys p) !! fd with
  | Some s =>
      match state s with
      | Fresh =>
          if existsb (clashes (family s) (type s) host port) (sockets (sys p))
          then (Raise (OSError "EADDRINUSE"), p)
          else
            match refuse_bind (sys p) host port with
            | Some errno => (Raise (OSError errno), p)
            | None =>
                (Ok tt, set_sockets (<[fd := set_state (Bound host port) s]> (sockets (sys p))) p)
            end
      | Closed => (Raise (OSError "EBADF"), p)
      | Bound _ _ | Listening _ _ => (Raise (OSError "EINVAL"), p)
      end
  | None => (Raise (OSError "EBADF"), p)
  end.

(** [sock.listen(backlog)] *)
Definition os_listen (fd : nat) (backlog : Z) (p : proc) : result unit * proc :=
  let p := emit (EvListen fd backlog) p in
  match sockets (sys p) !! fd with
  | Some s =>
      match state s with
      | Bound h port | Listening h port =>
          (Ok tt, set_sockets (<[fd := set_state (Listening h port) s]> (sockets (sys p))) p)
      | Fresh => (Raise (OSError "EDESTADDRREQ"), p)
      | Closed => (Raise (OSError "EBADF"), p)
      end
  | None => (Raise (OSError "EBADF"), p)
  end.

(** [sock.close()] *)
Definition os_close (fd : nat) (p : proc) : proc :=
  let p := emit (EvClose fd) p in
  match sockets (sys p) !! fd with
  | Some s => set_sockets (<[fd := set_state Closed s]> (sockets (sys p))) p
  | None => p
  end.

(** [print(line)] *)
Definition print (line : string) (p : proc) : proc :=
  emit (EvPrint line)
    {| sys := sys p; stdout := stdout p ++ [line +:+ Py.LF];
       p_stderr := p_stderr p; log := log p |}.

Definition eprint (lines : list string) (p : proc) : proc :=
  {| sys := sys p; stdout := stdout p; p_stderr := p_stderr p ++ lines; log := log p |}.

(** ** [socketserver] *)

(** A connection that the listening socket accepts: the peer, the time,
    what the peer sends, the files at that time, and the exception, if
    any, that a signal raises in the thread while the request is
    processed. *)
Record connection := {
  peer : string;
  at_time : Z;
  sends : list request_input;
  files : filesystem;
  interrupted : option exn
}.

(** What happens at a turn of the loop of [serve_forever]. *)
Inductive loop_event :=
| Idle
| Incoming (c : connection)
| AcceptFails (errno : string)
| Signal (e : exn).

Inductive outcome :=
| Serving
| Died (e : exn).

Record server := {
  socket : nat;
  server_address : string * Z
}.

Module BaseRequestHandler.

(** The attributes of a handler that [setup] has run on. *)
Definition setup (c : connection) : handler :=
  {| rfile := sends c; client_address := peer c; time := at_time c;
     raw_requestline := ""; requestline := ""; request_version := "";
     command := None; path := ""; headers := [];
     close_connection := false; _headers_buffer := None;
     wfile := []; stderr := [] |}.

(** [__init__]: [setup], then [handle], and [finish] in any case. *)
Definition init (handle : M unit) (c : connection) : result unit * handler :=
  match interrupted c with
  | Some e => (Raise e, setup c)
  | None => handle (setup c)
  end.

End BaseRequestHandler.

Module TCPServer.
Section methods.

(** [RequestHandlerClass]: the [handle] method of the class, for the
    files it is to serve. *)
Variable RequestHandlerClass : filesystem -> M unit.

Definition address_family := AF_INET.
Definition socket_type := SOCK_STREAM.
Definition request_queue_size : Z := 5.
Definition allow_reuse_address := false.
Definition allow_reuse_port := false.

(** [server_bind]; neither socket option is set, both flags being
    false.  The address bound is the one asked for, its port not being
    zero.  The library then replaces [server_address] by what
    [getsockname()] gives for the socket; the field keeps the address
    asked for here, and nothing in the program reads it after the
    bind. *)
Definition server_bind (self : server) (p : proc) : result server * proc :=
  let '(host, port) := server_address self in
  match os_bind (socket self) host port p with
  | (Ok _, p') => (Ok self, p')
  | (Raise e, p') => (Raise e, p')
  end.

Definition server_activate (self : server) (p : proc) : result unit * proc :=
  os_listen (socket self) request_queue_size p.

Definition server_close (self : server) (p : proc) : proc :=
  os_close (socket self) p.

(** [TCPServer.__init__] with [bind_and_activate=True]. *)
Definition init (server_address : string * Z) (p : proc) : result server * proc :=
  let '(fd, p) := os_socket address_family socket_type p in
  let self := {| socket := fd; server_address := server_address |} in
  match server_bind self p with
  | (Raise e, p') => (Raise e, server_close self p')
  | (Ok self, p') =>
      match server_activate self p' with
      | (Raise e, p'') => (Raise e, server_close self p'')
      | (Ok _, p'') => (Ok self, p'')
      end
  end.

(** [handle_error]: the trace-back goes to the error stream. *)
Definition handle_error (c : connection) (e : exn) (p : proc) : proc :=
  eprint ["----------------------------------------";
          "Exception occurred during processing of request from " +:+ peer c;
          "Traceback (most recent call last):";
          "----------------------------------------"] p.

Definition shutdown_request (c : connection) (p : proc) : proc :=
  emit (EvShutdown (peer c)) p.

(** [finish_request]: the handler is created, which handles the
    connection; what it wrote to the client and to the error stream is
    kept also when it raises. *)
Definition finish_request (c : connection) (p : proc) : result unit * proc :=
  let '(r, h) := BaseRequestHandler.init (RequestHandlerClass (files c)) c in
  (r, emit (EvReply (peer c) (wfile h)) (eprint (stderr h) p)).

Definition process_request (c : connection) (p : proc) : result unit * proc :=
  match finish_request c p with
  | (Ok _, p') => (Ok tt, shutdown_request c p')
  | (Raise e, p') => (Raise e, p')
  end.

(** [_handle_request_noblock], once [get_request] has returned the
    connection [c]; [verify_request] is always true. *)
Definition _handle_request_noblock (c : connection) (p : proc) : result unit * proc :=
  let p := emit (EvAccept (peer c)) p in
  match process_request c p with
  | (Ok _, p') => (Ok tt, p')
  | (Raise e, p') =>
      if is_Exception e
      then (Ok tt, shutdown_request c (handle_error c e p'))
      else (Raise e, shutdown_request c p')
  end.

(** [serve_forever] over the turns of its loop that the events
    describe; [shutdown] is never called, so the loop only ends by an
    exception.  When the events are used up the server waits in
    [select]. *)
Fixpoint serve_forever (self : server) (evs : list loop_event) (p : proc)
    : outcome * proc :=
  match evs with
  | [] => (Serving, emit EvSelect p)
  | ev :: evs' =>
      let p := emit EvSelect p in
      match ev with
      | Idle => serve_forever self evs' p
      | AcceptFails _ => serve_forever self evs' p
      | Signal e => (Died e, p)
      | Incoming c =>
          match _handle_request_noblock c p with
          | (Ok _, p') => serve_forever self evs' p'
          | (Raise e, p') => (Died e, p')
          end
      end
  end.

End methods.
End TCPServer.

(** ** [server.py]: the module body *)

Definition PORT : Z := 8000.

(** The line that the module prints: the f-string
    [Serving at http://localhost:{PORT}]. *)
Definition startup_line : string :=
  "Serving at http://localhost:" +:+ Py.str_of_int PORT.

(** The module body, on a machine with library [L], for the events
    [evs] that its loop meets.  The [with] statement closes the server
    when its body raises; an exception of the constructor is raised
    before the statement is entered. *)
Definition main (L : Lib) (evs : list loop_event) (p : proc) : outcome * proc :=
  match TCPServer.init ("", PORT) p with
  | (Raise e, p1) => (Died e, p1)
  | (Ok httpd, p1) =>
      let p2 := print startup_line p1 in
      match TCPServer.serve_forever (CORSRequestHandler.handle L) httpd evs p2 with
      | (Serving, p3) => (Serving, p3)
      | (Died e, p3) => (Died e, TCPServer.server_close httpd p3)
      end
  end.


(** ** Reading a response *)

Definition acao_line : string :=
  BaseHTTPRequestHandler.header_line "Access-Control-Allow-Origin" "*".

Definition acam_line : string :=
  BaseHTTPRequestHandler.header_line "Access-Control-Allow-Methods" "GET".

(** The status code on the status line that [data] starts with: the
    second of its words separated by single spaces. *)
Definition status_code (data : string) : option Z :=
  match (Py.split1 " " data).2 with
  | Some rest => Py.int_of_str (Py.split1 " " rest).1
  | None => None
  end.

(** The status of a response: the code of the head it starts with, if it
    starts with one. *)
Definition status_of (w : list write) : option Z :=
  match w with
  | Head data :: _ => status_code data
  | _ => None
  end.


(** The bytes of a response, as the client receives them. *)
Fixpoint wire (w : list write) : string :=
  match w with
  | [] => ""
  | Head data :: w' => data +:+ wire w'
  | Body data :: w' => data +:+ wire w'
  end.

(** A response carries a header when one of its heads is made of lines,
    as [send_header] and [send_response_only] buffer them, one of which
    is that header's. *)
Definition carries (keyword value : string) (w : list write) : Prop :=
  exists pre post,
    Head (Py.concat (pre ++ BaseHTTPRequestHandler.header_line keyword value :: post)) ∈ w.

(** A head ends with the two headers of [CORSRequestHandler] and the
    blank line. *)
Definition cors_terminated (x : write) : Prop :=
  match x with
  | Head data => exists pre, data = Py.concat (pre ++ [acao_line; acam_line; Py.CRLF])
  | Body _ => True
  end.

(** What the client of connection [c] is sent. *)
Definition respond (L : Lib) (c : connection) : list write :=
  wfile (CORSRequestHandler.handle L (files c) (BaseRequestHandler.setup c)).2.

(** A connection on which the peer sends one request. *)
Definition request (fs : filesystem) (line : string) (hs : list (string * string))
    : connection :=
  {| peer := "127.0.0.1"; at_time := 1767225600;
     sends := [{| in_line := line +:+ Py.CRLF; in_headers := Headers hs |}];
     files := fs; interrupted := None |}.

(** ** A sample environment

    A library and a directory tree for the examples.  The functions of
    the sample library return what CPython 3.11 returns on the strings
    that the examples pass to them: paths without dots or doubled
    slashes, without escapes but for the query [x=%ED%A0%80], and two
    dates.  That query unquotes to the lone surrogate U+D800, written
    here as the three bytes of the escape, which no encoding of a file
    system encodes. *)

Definition lone_surrogate : string := String "237" (String "160" (String "128" "")).

Definition sample_lib : Lib := {|
  getcwd := "/srv";
  unquote_strict := fun s =>
    if Py.endswith s "?x=%ED%A0%80"
    then Some ((Py.split1 "?" s).1 +:+ "?x=" +:+ lone_surrogate)
    else Some s;
  unquote := fun s => s;
  quote := fun s => s;
  normpath := fun s => s;
  urlsplit := fun s => ("", "", (Py.split1 "?" s).1, default "" (Py.split1 "?" s).2, "");
  urlunsplit := fun '(_, _, p, q, _) => if String.eqb q "" then p else p +:+ "?" +:+ q;
  splitext := fun s =>
    if Py.endswith s ".html" then (Py.rev (Py.lstrip_by (fun c => negb (Ascii.eqb c ".")) (Py.rev s)), ".html")
    else (s, "");
  mimetypes_guess_type := fun s =>
    if Py.endswith s ".html" then Some "text/html" else None;
  repr := fun s => "'" +:+ s +:+ "'";
  formatdate := fun t =>
    if t =? 1767225600 then "Thu, 01 Jan 2026 00:00:00 GMT"
    else if t =? 1748779200 then "Sun, 01 Jun 2025 12:00:00 GMT"
    else "";
  parsedate_utc := fun s =>
    if String.eqb s "Thu, 01 Jan 2026 00:00:00 GMT" then Some 1767225600
    else if String.eqb s "Sun, 01 Jun 2025 12:00:00 GMT" then Some 1748779200
    else None;
  error_page := fun code message explain =>
    "<p>Error code: " +:+ Py.str_of_int code +:+ "</p><p>Message: "
      +:+ Py.html_escape message +:+ ".</p>";
  sys_version := "Python/3.11.2";
  getfilesystemencoding := "utf-8";
  encode_fs := fun s => if Py.contains s lone_surrogate then None else Some s;
  log_line := fun addr t message => addr +:+ " - - [] " +:+ message +:+ Py.LF
|}.

(** The root [/srv] holds [index.html], the unreadable file [secret], the
    file [broken] whose read fails, and the directory [sub] with three
    files and no index.  [open] raises [ValueError] for a name with a NUL
    byte, and [OSError] for the other names it cannot open. *)
Definition sample_files : filesystem := {|
  isdir := fun p =>
    String.eqb p "/srv" || String.eqb p "/srv/"
    || String.eqb p "/srv/sub" || String.eqb p "/srv/sub/";
  isfile := fun p =>
    String.eqb p "/srv/index.html" || String.eqb p "/srv/broken"
    || String.eqb p "/srv/secret";
  islink := fun _ => false;
  open_rb := fun p =>
    if String.eqb p "/srv/index.html"
    then Some {| st_size := 11; st_mtime := 1748779200; f_read := Some "<h1>hi</h1>" |}
    else if String.eqb p "/srv/broken"
    then Some {| st_size := 4096; st_mtime := 1748779200; f_read := None |}
    else None;
  open_err := fun p =>
    if String.eqb p "/srv/secret" then NotOpened "EACCES"
    else if str_all (fun c => negb (Ascii.eqb c "000")) p then NotOpened "ENOENT"
    else BadName;
  listdir := fun p =>
    if String.eqb p "/srv/sub/" || String.eqb p "/srv/sub"
    then Some ["b.txt"; "A.txt"; "a.txt"] else None
|}.

(** A machine with no socket, on which every address may be bound. *)
Definition sample_machine : machine :=
  {| sockets := []; refuse_bind := fun _ _ => None |}.

(** ** Conditions on a request *)

(** The version on a request line is one that [parse_request] accepts and
    records as other than HTTP/0.9: heads are sent for it. *)
Definition http1 (version : string) : bool :=
  match BaseHTTPRequestHandler.parse_version version with
  | Some (major, minor, _) =>
      negb (Py.pair_geb (major, minor) (2, 0))
      && negb (String.eqb version "HTTP/0.9")
  | None => false
  end.

(** The request [r] has a request line of three words, the last a
    version for which heads are sent, and a header block that parses. *)
Definition http1_request (r : request_input) (verb target version : string)
    (hs : list (string * string)) : Prop :=
  in_headers r = Headers hs /\
  Z.of_nat (String.length (in_line r)) <= 65536 /\
  Py.split_ws (Py.rstrip_crlf (in_line r)) = [verb; target; version] /\
  http1 version = true.


(** ** Properties of handler programs *)

(** A program keeps the invariant [I] of the handler, and the exceptions
    it raises are subclasses of [Exception]. *)
Definition respects (I : handler -> Prop) {A} (m : M A) : Prop :=
  forall h, I h ->
    I (m h).2 /\
    match (m h).1 with
    | Raise e => is_Exception e = true
    | Ok _ => True
    end.

(** Every head written so far ends with the two headers and the blank
    line. *)
Definition cors_heads (h : handler) : Prop := Forall cors_terminated (wfile h).

(** ** The effect of the methods on the handler *)

(** Heads are sent for the request at hand. *)
Definition sends_heads (h : handler) : bool :=
  negb (String.eqb (request_version h) "HTTP/0.9").

(** The handler after a line has been appended to its buffer. *)
Definition buffered (line : string) (h : handler) : handler :=
  set_headers_buffer (Some (default [] (_headers_buffer h) ++ [line])) h.

(** The handler after [log_message]. *)
Definition logged (L : Lib) (message : string) (h : handler) : handler :=
  set_stderr (stderr h ++ [log_line L (client_address h) (time h) message]) h.


(** The handler after [CORSRequestHandler.end_headers], when heads are
    sent. *)
Definition flushed (h : handler) : handler :=
  set_headers_buffer (Some [])
    (set_wfile
       (wfile h ++ [Head (Py.concat (default [] (_headers_buffer h)
                                       ++ [acao_line; acam_line; Py.CRLF]))]) h).


(** The handler after [parse_request] has accepted a request line of
    three words and its header block. *)
Definition parsed (verb target version : string) (hs : list (string * string))
    (h : handler) : handler :=
  set_headers hs
    (set_path (BaseHTTPRequestHandler.path_of_target target)
       (set_command (Some verb)
          (set_request_version version
             (set_requestline (Py.rstrip_crlf (raw_requestline h))
                (set_close_connection true h))))).

(** The handler that has read the request [r] off its input and parsed
    it. *)
Definition received (r : request_input) (rest : list request_input)
    (verb target version : string) (hs : list (string * string)) (h : handler)
    : handler :=
  parsed verb target version hs (set_raw_requestline (in_line r) (set_rfile rest h)).





(** ** Conditions on a machine and on the events of the loop *)

(** The error number with which the system refuses a stream socket of
    the process the address [(host, port)], if it does. *)
Definition bind_error (host : string) (port : Z) (p : proc) : option string :=
  if existsb (clashes AF_INET SOCK_STREAM host port) (sockets (sys p))
  then Some "EADDRINUSE"
  else refuse_bind (sys p) host port.

(** The descriptor that the next call of [socket.socket] returns. *)
Definition next_fd (p : proc) : nat := List.length (sockets (sys p)).

(** An event of the loop of [serve_forever]. *)
Definition in_loop (e : event) : bool :=
  match e with
  | EvSelect | EvAccept _ | EvReply _ _ | EvShutdown _ => true
  | EvSocket _ _ _ | EvBind _ _ _ | EvListen _ _ | EvPrint _ | EvClose _ => false
  end.

(** A turn of the loop in which nothing but a subclass of [Exception] is
    raised: no signal interrupts [select], and none interrupts the
    handler with anything else. *)
Definition benign (ev : loop_event) : Prop :=
  match ev with
  | Signal _ => False
  | Incoming c =>
      match interrupted c with
      | Some e => is_Exception e = true
      | None => True
      end
  | Idle | AcceptFails _ => True
  end.

(** The listening socket of a [TCPServer] on [(host, port)]. *)
Definition listening (host : string) (port : Z) : sock :=
  {| family := AF_INET; type := SOCK_STREAM; state := Listening host port |}.

(** What a turn of the loop leaves alone: the sockets, the standard
    output; and the events it adds are events of the loop. *)
Definition extends_loop (p q : proc) : Prop :=
  sys q = sys p /\ stdout q = stdout p /\
  exists post, log q = log p ++ post /\ Forall (fun e => in_loop e = true) post.


(** ** Further states of the handler *)

(** The connection is marked for closing. *)
Definition closed (h : handler) : Prop := close_connection h = true.

(** The handler after [CORSRequestHandler.send_error] with a message and
    a code that has a body, when no head is sent (the request version is
    HTTP/0.9): the two log lines, and the page. *)
Definition failed_quiet (L : Lib) (code : Z) (message : string) (h : handler) : handler :=
  let explain := (default ("???", "???") (BaseHTTPRequestHandler.responses code)).2 in
  let page := error_page L code message explain in
  let h1 :=
    set_close_connection true
      (logged L (Py.DQUOTE +:+ requestline h +:+ Py.DQUOTE +:+ " "
                   +:+ Py.str_of_int code +:+ " -")
         (logged L ("code " +:+ Py.str_of_int code +:+ ", message " +:+ message) h)) in
  if negb (bool_decide (command h = Some "HEAD")) && negb (String.eqb page "")
  then set_wfile (wfile h1 ++ [Body page]) h1 else h1.

(** The handler when [parse_request] looks at the words of the request
    line. *)
Definition scanned (h : handler) : handler :=
  set_requestline (Py.rstrip_crlf (raw_requestline h))
    (set_close_connection true
       (set_request_version BaseHTTPRequestHandler.default_request_version
          (set_command None h))).



(** * Properties *)

(** ** The handler monad *)

Lemma string_app_nil_r (s : string) : s +:+ "" = s.
Proof.
  induction s as [|c s IH]; [reflexivity |].
  change (String c (s +:+ "") = String c s). f_equal. exact IH.
Qed.

Lemma bind_run {A B} (m : M A) (k : A -> M B) h a h' :
  m h = (Ok a, h') -> bind m k h = k a h'.
Proof. intros E. unfold bind. rewrite E. reflexivity. Qed.

Lemma bind_raise {A B} (m : M A) (k : A -> M B) h e h' :
  m h = (Raise e, h') -> bind m k h = (Raise e, h').
Proof. intros E. unfold bind. rewrite E. reflexivity. Qed.

Lemma respects_ret I {A} (a : A) : respects I (ret a).
Proof. intros h Hh. split; [exact Hh | exact Logic.I]. Qed.

Lemma respects_bind I {A B} (m : M A) (k : A -> M B) :
  respects I m -> (forall a, respects I (k a)) -> respects I (bind m k).
Proof.
  intros Hm Hk h Hh. unfold bind.
  destruct (Hm h Hh) as [H1 H2]. destruct (m h) as [[a|e] h']; simpl in *.
  - apply Hk, H1.
  - split; assumption.
Qed.

Lemma respects_get I : respects I get.
Proof. intros h Hh. split; [exact Hh | exact Logic.I]. Qed.

Lemma respects_modify I (f : handler -> handler) :
  (forall h, I h -> I (f h)) -> respects I (modify f).
Proof. intros Hf h Hh. split; [apply Hf, Hh | exact Logic.I]. Qed.

Lemma respects_raise I {A} (e : exn) :
  is_Exception e = true -> respects I (@raise A e).
Proof. intros He h Hh. split; [exact Hh | exact He]. Qed.

Create HintDb respects.
Ltac proj := cbn [rfile client_address time raw_requestline requestline request_version
  command path headers close_connection _headers_buffer wfile stderr
  from_option id set_rfile set_raw_requestline set_requestline set_request_version
  set_command set_path set_headers set_close_connection set_headers_buffer set_wfile
  set_stderr fst snd].

Ltac respects_step :=
  first
    [ assumption
    | solve [auto with respects]
    | apply respects_ret
    | apply respects_get
    | apply respects_modify; intros ? ?; assumption
    | apply respects_raise; reflexivity
    | match goal with
      | |- respects _ (if ?b then _ else _) => destruct b
      | |- respects _ (match ?x with _ => _ end) => destruct x
      | |- respects _ (let _ := _ in _) => cbv zeta
      end
    | apply respects_bind; [| intros ?] ].

Ltac respects_auto := repeat respects_step.

(** One step of a program whose first action is known to return. *)
Ltac step_with tac := erewrite bind_run by tac.
Ltac step := step_with ltac:(reflexivity).

(** *** Header methods *)

Lemma send_header_run keyword value h :
  String.eqb (Py.lower keyword) "connection" = false ->
  sends_heads h = true ->
  BaseHTTPRequestHandler.send_header keyword value h =
  (Ok tt, buffered (BaseHTTPRequestHandler.header_line keyword value) h).
Proof.
  intros Hk Hs. unfold BaseHTTPRequestHandler.send_header.
  unfold bind at 1. unfold get at 1. cbv beta iota. rewrite Hk.
  unfold sends_heads in Hs. rewrite Hs. reflexivity.
Qed.

Lemma send_header_quiet keyword value h :
  String.eqb (Py.lower keyword) "connection" = false ->
  sends_heads h = false ->
  BaseHTTPRequestHandler.send_header keyword value h = (Ok tt, h).
Proof.
  intros Hk Hs. unfold BaseHTTPRequestHandler.send_header.
  unfold bind at 1. unfold get at 1. cbv beta iota. rewrite Hk.
  unfold sends_heads in Hs. rewrite Hs. reflexivity.
Qed.


Lemma send_header_close_quiet h :
  sends_heads h = false ->
  BaseHTTPRequestHandler.send_header "Connection" "close" h =
  (Ok tt, set_close_connection true h).
Proof.
  intros Hs. unfold BaseHTTPRequestHandler.send_header.
  unfold bind at 1. unfold get at 1. cbv beta iota.
  unfold sends_heads in Hs. rewrite Hs. reflexivity.
Qed.


Lemma send_response_only_quiet code message h :
  sends_heads h = false ->
  BaseHTTPRequestHandler.send_response_only code message h = (Ok tt, h).
Proof.
  intros Hs. unfold BaseHTTPRequestHandler.send_response_only.
  unfold bind at 1. unfold get at 1. cbv beta iota.
  unfold sends_heads in Hs. rewrite Hs. reflexivity.
Qed.


Lemma send_response_quiet L code message h :
  sends_heads h = false ->
  BaseHTTPRequestHandler.send_response L code message h =
  (Ok tt, logged L (Py.DQUOTE +:+ requestline h +:+ Py.DQUOTE +:+ " "
                      +:+ Py.str_of_int code +:+ " -") h).
Proof.
  intros Hs. unfold BaseHTTPRequestHandler.send_response.
  step.
  step_with ltac:(apply send_response_only_quiet; exact Hs).
  step_with ltac:(apply send_header_quiet; [reflexivity | exact Hs]).
  step.
  rewrite send_header_quiet; [reflexivity | reflexivity | exact Hs].
Qed.

Lemma cors_end_headers_run h :
  sends_heads h = true -> CORSRequestHandler.end_headers h = (Ok tt, flushed h).
Proof.
  intros Hs. unfold CORSRequestHandler.end_headers.
  step_with ltac:(apply send_header_run; [reflexivity | exact Hs]).
  step_with ltac:(apply send_header_run; [reflexivity | exact Hs]).
  unfold BaseHTTPRequestHandler.end_headers, BaseHTTPRequestHandler.flush_headers.
  step. cbv beta. unfold buffered. proj. unfold sends_heads in Hs. rewrite Hs. cbv iota.
  step. step. unfold modify, flushed, acao_line, acam_line. proj.
  rewrite <- !app_assoc. reflexivity.
Qed.

Lemma cors_end_headers_quiet h :
  sends_heads h = false -> CORSRequestHandler.end_headers h = (Ok tt, h).
Proof.
  intros Hs. unfold CORSRequestHandler.end_headers.
  step_with ltac:(apply send_header_quiet; [reflexivity | exact Hs]).
  step_with ltac:(apply send_header_quiet; [reflexivity | exact Hs]).
  unfold BaseHTTPRequestHandler.end_headers.
  step. cbv beta. unfold sends_heads in Hs. rewrite Hs. reflexivity.
Qed.


(** *** Every method keeps the heads terminated and raises only
    subclasses of [Exception] *)

Lemma cors_end_headers_respects : respects cors_heads CORSRequestHandler.end_headers.
Proof.
  intros h Hh. destruct (sends_heads h) eqn:Hs.
  - rewrite (cors_end_headers_run h Hs). split; [|exact Logic.I].
    unfold cors_heads, flushed. proj. apply Forall_app. split; [exact Hh|].
    constructor; [|constructor]. exists (default [] (_headers_buffer h)). reflexivity.
  - rewrite (cors_end_headers_quiet h Hs). split; [exact Hh | exact Logic.I].
Qed.

Lemma log_message_respects L message :
  respects cors_heads (BaseHTTPRequestHandler.log_message L message).
Proof. apply respects_modify. intros h Hh. exact Hh. Qed.

Lemma buffer_append_respects line :
  respects cors_heads (BaseHTTPRequestHandler.buffer_append line).
Proof. apply respects_modify. intros h Hh. exact Hh. Qed.

Lemma wfile_write_respects data :
  respects cors_heads (BaseHTTPRequestHandler.wfile_write data).
Proof.
  apply respects_modify. intros h Hh. unfold cors_heads. proj.
  apply Forall_app. split; [exact Hh|]. constructor; [exact Logic.I | constructor].
Qed.

#[local] Hint Resolve cors_end_headers_respects log_message_respects
  buffer_append_respects wfile_write_respects : respects.

Lemma send_header_respects keyword value :
  respects cors_heads (BaseHTTPRequestHandler.send_header keyword value).
Proof. unfold BaseHTTPRequestHandler.send_header. respects_auto. Qed.

Lemma send_response_only_respects code message :
  respects cors_heads (BaseHTTPRequestHandler.send_response_only code message).
Proof. unfold BaseHTTPRequestHandler.send_response_only. respects_auto. Qed.

#[local] Hint Resolve send_header_respects send_response_only_respects : respects.

Lemma send_response_respects L code message :
  respects cors_heads (BaseHTTPRequestHandler.send_response L code message).
Proof.
  unfold BaseHTTPRequestHandler.send_response, BaseHTTPRequestHandler.log_request.
  respects_auto.
Qed.

#[local] Hint Resolve send_response_respects : respects.

Section Inherited.
Context (L : Lib) (fs : filesystem) (eh : M unit).
Hypothesis eh_respects : respects cors_heads eh.

Lemma send_error_respects code message explain :
  respects cors_heads (BaseHTTPRequestHandler.send_error L eh code message explain).
Proof.
  unfold BaseHTTPRequestHandler.send_error, BaseHTTPRequestHandler.log_error.
  destruct (default ("???", "???") (BaseHTTPRequestHandler.responses code)).
  cbv zeta. respects_auto.
Qed.

Hint Resolve send_error_respects : respects.

Lemma parse_request_headers_respects hdrs :
  respects cors_heads (BaseHTTPRequestHandler.parse_request_headers L eh hdrs).
Proof.
  unfold BaseHTTPRequestHandler.parse_request_headers,
    BaseHTTPRequestHandler.handle_expect_100.
  destruct hdrs; respects_auto.
Qed.

Hint Resolve parse_request_headers_respects : respects.

Lemma parse_request_respects hdrs :
  respects cors_heads (BaseHTTPRequestHandler.parse_request L eh hdrs).
Proof.
  unfold BaseHTTPRequestHandler.parse_request. cbv zeta. respects_auto.
Qed.

Lemma readline_respects : respects cors_heads BaseHTTPRequestHandler.readline.
Proof. unfold BaseHTTPRequestHandler.readline. respects_auto. Qed.

Hint Resolve parse_request_respects readline_respects : respects.

Lemma handle_one_request_respects do_GET do_HEAD :
  respects cors_heads do_GET -> respects cors_heads do_HEAD ->
  respects cors_heads (BaseHTTPRequestHandler.handle_one_request L eh do_GET do_HEAD).
Proof.
  intros HG HH. unfold BaseHTTPRequestHandler.handle_one_request. cbv zeta.
  respects_auto.
Qed.

Lemma handle_loop_respects do_GET do_HEAD fuel :
  respects cors_heads do_GET -> respects cors_heads do_HEAD ->
  respects cors_heads (BaseHTTPRequestHandler.handle_loop L eh do_GET do_HEAD fuel).
Proof.
  intros HG HH. induction fuel as [|fuel IH]; cbn [BaseHTTPRequestHandler.handle_loop].
  - apply respects_ret.
  - pose proof (handle_one_request_respects do_GET do_HEAD HG HH). respects_auto.
Qed.

Lemma base_handle_respects do_GET do_HEAD :
  respects cors_heads do_GET -> respects cors_heads do_HEAD ->
  respects cors_heads (BaseHTTPRequestHandler.handle L eh do_GET do_HEAD).
Proof.
  intros HG HH. unfold BaseHTTPRequestHandler.handle.
  pose proof (handle_one_request_respects do_GET do_HEAD HG HH).
  pose proof (fun n => handle_loop_respects do_GET do_HEAD n HG HH).
  respects_auto.
Qed.

Lemma list_directory_respects p :
  respects cors_heads (SimpleHTTPRequestHandler.list_directory L fs eh p).
Proof. unfold SimpleHTTPRequestHandler.list_directory. cbv zeta. respects_auto. Qed.

Hint Resolve list_directory_respects : respects.

Lemma send_head_respects :
  respects cors_heads (SimpleHTTPRequestHandler.send_head L fs eh).
Proof. unfold SimpleHTTPRequestHandler.send_head. cbv zeta. respects_auto. Qed.

Lemma copyfile_respects source :
  respects cors_heads (SimpleHTTPRequestHandler.copyfile source).
Proof. unfold SimpleHTTPRequestHandler.copyfile. respects_auto. Qed.

Hint Resolve send_head_respects copyfile_respects : respects.

Lemma do_GET_respects : respects cors_heads (SimpleHTTPRequestHandler.do_GET L fs eh).
Proof. unfold SimpleHTTPRequestHandler.do_GET. respects_auto. Qed.

Lemma do_HEAD_respects : respects cors_heads (SimpleHTTPRequestHandler.do_HEAD L fs eh).
Proof. unfold SimpleHTTPRequestHandler.do_HEAD. respects_auto. Qed.

Lemma simple_handle_respects :
  respects cors_heads (SimpleHTTPRequestHandler.handle L fs eh).
Proof.
  unfold SimpleHTTPRequestHandler.handle.
  apply base_handle_respects; [apply do_GET_respects | apply do_HEAD_respects].
Qed.
End Inherited.

Lemma cors_handle_respects L fs : respects cors_heads (CORSRequestHandler.handle L fs).
Proof.
  exact (simple_handle_respects L fs CORSRequestHandler.end_headers cors_end_headers_respects).
Qed.

(** *** Parsing a request *)


Lemma parse_request_run L eh verb target version hs h :
  Py.split_ws (Py.rstrip_crlf (raw_requestline h)) = [verb; target; version] ->
  http1 version = true ->
  BaseHTTPRequestHandler.parse_request L eh (Headers hs) h =
  (Ok true, parsed verb target version hs h).
Proof.
  intros Hw Hv. unfold BaseHTTPRequestHandler.parse_request.
  do 4 step. cbv beta zeta. proj. rewrite Hw.
  cbn [List.length Nat.eqb Nat.leb List.last negb].
  step. unfold http1 in Hv.
  destruct (BaseHTTPRequestHandler.parse_version version) as [[[major minor] base]|];
    [|discriminate].
  apply andb_prop in Hv as [Hlt _]. apply negb_true_iff in Hlt.
  change (Py.str_geb BaseHTTPRequestHandler.protocol_version "HTTP/1.1") with false.
  rewrite andb_false_r. rewrite Hlt.
  step_with ltac:(do 2 step; reflexivity).
  cbn [negb]. step_with ltac:(reflexivity).
  cbn [negb]. do 2 step.
  unfold BaseHTTPRequestHandler.parse_request_headers. cbv zeta.
  step.
  change (Py.str_geb BaseHTTPRequestHandler.protocol_version "HTTP/1.1") with false.
  rewrite !andb_false_r.
  step_with ltac:(
    destruct (String.eqb (Py.lower (BaseHTTPRequestHandler.headers_get "Connection" hs)) "close");
    reflexivity).
  step. cbv beta. rewrite andb_false_l || rewrite andb_false_r. reflexivity.
Qed.

(** *** Handling a request *)

Lemma words_nonempty line verb target version :
  Py.split_ws (Py.rstrip_crlf line) = [verb; target; version] ->
  String.eqb line "" = false.
Proof. destruct line; [discriminate | reflexivity]. Qed.

Lemma handle_one_request_run L eh do_GET do_HEAD r rest verb target version hs h :
  rfile h = r :: rest ->
  http1_request r verb target version hs ->
  BaseHTTPRequestHandler.handle_one_request L eh do_GET do_HEAD h =
  (if String.eqb verb "GET" then do_GET
   else if String.eqb verb "HEAD" then do_HEAD
   else BaseHTTPRequestHandler.send_error L eh 501
          (Some ("Unsupported method (" +:+ repr L verb +:+ ")")) None)
    (received r rest verb target version hs h).
Proof.
  intros Hr (Hh & Hlen & Hw & Hv).
  unfold BaseHTTPRequestHandler.handle_one_request.
  step_with ltac:(unfold BaseHTTPRequestHandler.readline; step; rewrite Hr; step; reflexivity).
  step.
  apply Z.leb_le in Hlen. rewrite Z.leb_antisym in Hlen. apply negb_true_iff in Hlen.
  rewrite Hlen. rewrite (words_nonempty _ _ _ _ Hw). rewrite Hh.
  step_with ltac:(apply parse_request_run; [exact Hw | exact Hv]).
  cbn [negb]. step. reflexivity.
Qed.

Lemma handle_loop_closed L eh do_GET do_HEAD fuel h :
  close_connection h = true ->
  BaseHTTPRequestHandler.handle_loop L eh do_GET do_HEAD fuel h = (Ok tt, h).
Proof.
  intros Hc. destruct fuel as [|fuel]; [reflexivity|].
  cbn [BaseHTTPRequestHandler.handle_loop]. step. rewrite Hc. reflexivity.
Qed.

Lemma handle_returns L eh do_GET do_HEAD h h' :
  BaseHTTPRequestHandler.handle_one_request L eh do_GET do_HEAD
    (set_close_connection true h) = (Ok tt, h') ->
  close_connection h' = true ->
  BaseHTTPRequestHandler.handle L eh do_GET do_HEAD h = (Ok tt, h').
Proof.
  intros E Hc. unfold BaseHTTPRequestHandler.handle.
  step. step_with ltac:(exact E). step. apply handle_loop_closed, Hc.
Qed.

Lemma handle_raises L eh do_GET do_HEAD h e h' :
  BaseHTTPRequestHandler.handle_one_request L eh do_GET do_HEAD
    (set_close_connection true h) = (Raise e, h') ->
  BaseHTTPRequestHandler.handle L eh do_GET do_HEAD h = (Raise e, h').
Proof.
  intros E. unfold BaseHTTPRequestHandler.handle.
  step. apply bind_raise. exact E.
Qed.

Lemma cors_handle_one_request_run L fs r rest target version hs h :
  rfile h = r :: rest ->
  http1_request r "GET" target version hs ->
  CORSRequestHandler.handle_one_request L fs h =
  CORSRequestHandler.do_GET L fs (received r rest "GET" target version hs h).
Proof.
  exact (handle_one_request_run L CORSRequestHandler.end_headers
           (CORSRequestHandler.do_GET L fs) (CORSRequestHandler.do_HEAD L fs)
           r rest "GET" target version hs h).
Qed.

Lemma cors_handle_returns L fs h h' :
  CORSRequestHandler.handle_one_request L fs (set_close_connection true h) = (Ok tt, h') ->
  close_connection h' = true ->
  CORSRequestHandler.handle L fs h = (Ok tt, h').
Proof.
  exact (handle_returns L CORSRequestHandler.end_headers
           (CORSRequestHandler.do_GET L fs) (CORSRequestHandler.do_HEAD L fs) h h').
Qed.

Lemma cors_handle_raises L fs h e h' :
  CORSRequestHandler.handle_one_request L fs (set_close_connection true h) = (Raise e, h') ->
  CORSRequestHandler.handle L fs h = (Raise e, h').
Proof.
  exact (handle_raises L CORSRequestHandler.end_headers
           (CORSRequestHandler.do_GET L fs) (CORSRequestHandler.do_HEAD L fs) h e h').
Qed.


(** *** Sending the head *)

Section SendHead.
Context (L : Lib) (fs : filesystem) (h : handler).
Hypothesis Hs : sends_heads h = true.

Local Abbreviation p := (SimpleHTTPRequestHandler.translate_path L (path h)).



Lemma send_head_bad_name e :
  isdir fs p = false -> Py.endswith p "/" = false ->
  open_rb fs p = None -> open_err fs p = e ->
  match e with NotOpened _ => False | _ => True end ->
  CORSRequestHandler.send_head L fs h = (Raise (exn_of_open_error e), h).
Proof.
  intros Hd Hsl Ho He Hne.
  unfold CORSRequestHandler.send_head, SimpleHTTPRequestHandler.send_head.
  step. cbv zeta beta. unfold SimpleHTTPRequestHandler.self_path.
  rewrite Hd, Hsl, Ho, He. destruct e; [destruct Hne | reflexivity | reflexivity].
Qed.




Lemma send_head_unencodable scheme netloc ppath query fragment names :
  isdir fs p = true ->
  urlsplit L (path h) = (scheme, netloc, ppath, query, fragment) ->
  Py.endswith ppath "/" = true ->
  isfile fs (SimpleHTTPRequestHandler.path_join p "index.html") = false ->
  isfile fs (SimpleHTTPRequestHandler.path_join p "index.htm") = false ->
  listdir fs p = Some names ->
  encode_fs L
    (SimpleHTTPRequestHandler.listing_page L fs (path h) p
       (SimpleHTTPRequestHandler.sort_lower names)) = None ->
  CORSRequestHandler.send_head L fs h = (Raise UnicodeEncodeError, h).
Proof.
  intros Hd Hu Hsl Hi1 Hi2 Hl He.
  unfold CORSRequestHandler.send_head, SimpleHTTPRequestHandler.send_head.
  step. cbv zeta beta. unfold SimpleHTTPRequestHandler.self_path.
  rewrite Hd, Hu, Hsl, Hi1, Hi2. cbn [negb].
  unfold SimpleHTTPRequestHandler.list_directory. rewrite Hl.
  step. cbv zeta beta. unfold SimpleHTTPRequestHandler.self_path. rewrite He.
  reflexivity.
Qed.
End SendHead.

(** *** Whole requests *)



Section GetFile.
Context (L : Lib) (c : connection) (r : request_input) (rest : list request_input).
Context (target version : string) (hs : list (string * string)).
Hypothesis Hsends : sends c = r :: rest.
Hypothesis Hreq : http1_request r "GET" target version hs.

Local Abbreviation p :=
  (SimpleHTTPRequestHandler.translate_path L (BaseHTTPRequestHandler.path_of_target target)).
Local Abbreviation h1 :=
  (received r rest "GET" target version hs
     (set_close_connection true (BaseRequestHandler.setup c))).




End GetFile.

(** *** Reading the responses *)






Section GetOther.
Context (L : Lib) (c : connection) (r : request_input) (rest : list request_input).
Context (target version : string) (hs : list (string * string)).
Hypothesis Hsends : sends c = r :: rest.
Hypothesis Hreq : http1_request r "GET" target version hs.

Local Abbreviation p :=
  (SimpleHTTPRequestHandler.translate_path L (BaseHTTPRequestHandler.path_of_target target)).
Local Abbreviation h1 :=
  (received r rest "GET" target version hs
     (set_close_connection true (BaseRequestHandler.setup c))).






Lemma get_bad_name_run e :
  isdir (files c) p = false -> Py.endswith p "/" = false ->
  open_rb (files c) p = None -> open_err (files c) p = e ->
  match e with NotOpened _ => False | _ => True end ->
  CORSRequestHandler.handle L (files c) (BaseRequestHandler.setup c) =
  (Raise (exn_of_open_error e), h1).
Proof.
  intros Hd Hsl Ho He Hne.
  apply cors_handle_raises.
  rewrite (cors_handle_one_request_run L (files c) r rest target version hs
             (set_close_connection true (BaseRequestHandler.setup c)) Hsends Hreq).
  unfold CORSRequestHandler.do_GET, SimpleHTTPRequestHandler.do_GET.
  apply bind_raise.
  apply (send_head_bad_name L (files c) h1 e); assumption.
Qed.

Lemma get_bad_name_response e :
  isdir (files c) p = false -> Py.endswith p "/" = false ->
  open_rb (files c) p = None -> open_err (files c) p = e ->
  match e with NotOpened _ => False | _ => True end ->
  (CORSRequestHandler.handle L (files c) (BaseRequestHandler.setup c)).1
    = Raise (exn_of_open_error e) /\
  respond L c = [].
Proof.
  intros Hd Hsl Ho He Hne. unfold respond.
  rewrite (get_bad_name_run e Hd Hsl Ho He Hne). split; reflexivity.
Qed.

Lemma get_unencodable_run scheme netloc ppath query fragment names :
  isdir (files c) p = true ->
  urlsplit L (BaseHTTPRequestHandler.path_of_target target)
    = (scheme, netloc, ppath, query, fragment) ->
  Py.endswith ppath "/" = true ->
  isfile (files c) (SimpleHTTPRequestHandler.path_join p "index.html") = false ->
  isfile (files c) (SimpleHTTPRequestHandler.path_join p "index.htm") = false ->
  listdir (files c) p = Some names ->
  encode_fs L
    (SimpleHTTPRequestHandler.listing_page L (files c)
       (BaseHTTPRequestHandler.path_of_target target) p
       (SimpleHTTPRequestHandler.sort_lower names)) = None ->
  CORSRequestHandler.handle L (files c) (BaseRequestHandler.setup c) =
  (Raise UnicodeEncodeError, h1).
Proof.
  intros Hd Hu Hsl Hi1 Hi2 Hl He.
  apply cors_handle_raises.
  rewrite (cors_handle_one_request_run L (files c) r rest target version hs
             (set_close_connection true (BaseRequestHandler.setup c)) Hsends Hreq).
  unfold CORSRequestHandler.do_GET, SimpleHTTPRequestHandler.do_GET.
  apply bind_raise.
  apply (send_head_unencodable L (files c) h1 scheme netloc ppath query fragment names);
    assumption.
Qed.
End GetOther.

(** *** A request line without a word *)




(** *** The server *)

Lemma existsb_app_fresh af ty host port (ss : list sock) :
  existsb (clashes af ty host port)
    (ss ++ [{| family := AF_INET; type := SOCK_STREAM; state := Fresh |}])
  = existsb (clashes af ty host port) ss.
Proof.
  rewrite existsb_app. cbn [existsb]. unfold clashes at 2. cbn [state].
  rewrite andb_false_r, !orb_false_r. reflexivity.
Qed.

Lemma init_fails host port p errno :
  bind_error host port p = Some errno ->
  TCPServer.init (host, port) p =
  (Raise (OSError errno),
   {| sys := {| sockets := sockets (sys p)
                  ++ [{| family := AF_INET; type := SOCK_STREAM; state := Closed |}];
                refuse_bind := refuse_bind (sys p) |};
      stdout := stdout p; p_stderr := p_stderr p;
      log := log p ++ [EvSocket (next_fd p) AF_INET SOCK_STREAM;
                       EvBind (next_fd p) host port; EvClose (next_fd p)] |}).
Proof.
  unfold bind_error, next_fd. intros Hb.
  unfold TCPServer.init, os_socket, TCPServer.server_bind, os_bind, emit, set_sockets.
  cbn [sys sockets log stdout p_stderr refuse_bind socket server_address
       TCPServer.address_family TCPServer.socket_type].
  rewrite list_lookup_middle by reflexivity. cbn [state family type].
  rewrite existsb_app_fresh.
  destruct (existsb _ (sockets (sys p))).
  - injection Hb as <-. unfold TCPServer.server_close, os_close, emit, set_sockets.
    cbn [sys sockets log stdout p_stderr refuse_bind socket].
    rewrite list_lookup_middle by reflexivity.
    rewrite insert_app_r_alt by reflexivity. rewrite Nat.sub_diag.
    rewrite <- !app_assoc. reflexivity.
  - rewrite Hb. unfold TCPServer.server_close, os_close, emit, set_sockets.
    cbn [sys sockets log stdout p_stderr refuse_bind socket].
    rewrite list_lookup_middle by reflexivity.
    rewrite insert_app_r_alt by reflexivity. rewrite Nat.sub_diag.
    rewrite <- !app_assoc. reflexivity.
Qed.

Lemma init_binds host port p :
  bind_error host port p = None ->
  TCPServer.init (host, port) p =
  (Ok {| socket := next_fd p; server_address := (host, port) |},
   {| sys := {| sockets := sockets (sys p) ++ [listening host port];
                refuse_bind := refuse_bind (sys p) |};
      stdout := stdout p; p_stderr := p_stderr p;
      log := log p ++ [EvSocket (next_fd p) AF_INET SOCK_STREAM;
                       EvBind (next_fd p) host port;
                       EvListen (next_fd p) TCPServer.request_queue_size] |}).
Proof.
  unfold bind_error, next_fd. intros Hb.
  unfold TCPServer.init, os_socket, TCPServer.server_bind, os_bind, emit, set_sockets.
  cbn [sys sockets log stdout p_stderr refuse_bind socket server_address
       TCPServer.address_family TCPServer.socket_type].
  rewrite list_lookup_middle by reflexivity. cbn [state family type].
  rewrite existsb_app_fresh.
  destruct (existsb _ (sockets (sys p))); [discriminate|]. rewrite Hb.
  unfold TCPServer.server_activate, os_listen, emit, set_sockets.
  cbn [sys sockets log stdout p_stderr refuse_bind socket].
  rewrite insert_app_r_alt by reflexivity. rewrite Nat.sub_diag. cbn [insert list_insert].
  rewrite list_lookup_middle by reflexivity. cbn [state set_state].
  rewrite insert_app_r_alt by reflexivity. rewrite Nat.sub_diag. cbn [insert list_insert].
  rewrite <- !app_assoc. reflexivity.
Qed.

Lemma init_cases host port p :
  (exists errno, bind_error host port p = Some errno) \/ bind_error host port p = None.
Proof. destruct (bind_error host port p); [left; eauto | right; reflexivity]. Qed.

Lemma extends_loop_refl p : extends_loop p p.
Proof.
  split; [reflexivity|]. split; [reflexivity|].
  exists []. split; [symmetry; apply app_nil_r | constructor].
Qed.

Lemma extends_loop_trans p q r :
  extends_loop p q -> extends_loop q r -> extends_loop p r.
Proof.
  intros (S1 & O1 & post1 & L1 & F1) (S2 & O2 & post2 & L2 & F2).
  split; [congruence|]. split; [congruence|].
  exists (post1 ++ post2). split.
  - rewrite L2, L1, app_assoc. reflexivity.
  - apply Forall_app. split; assumption.
Qed.

Lemma extends_loop_emit e p : in_loop e = true -> extends_loop p (emit e p).
Proof.
  intros He. split; [reflexivity|]. split; [reflexivity|].
  exists [e]. split; [reflexivity|]. constructor; [exact He | constructor].
Qed.

Lemma extends_loop_eprint lines p : extends_loop p (eprint lines p).
Proof.
  split; [reflexivity|]. split; [reflexivity|].
  exists []. split; [symmetry; apply app_nil_r | constructor].
Qed.

Lemma handle_request_extends H c p :
  extends_loop p (TCPServer._handle_request_noblock H c p).2.
Proof.
  unfold TCPServer._handle_request_noblock, TCPServer.process_request,
    TCPServer.finish_request, TCPServer.shutdown_request, TCPServer.handle_error.
  destruct (BaseRequestHandler.init (H (files c)) c) as [[[]|e] h]; cbn [snd].
  - repeat (eapply extends_loop_trans;
      [|first [apply extends_loop_emit; reflexivity | apply extends_loop_eprint]]).
    apply extends_loop_refl.
  - destruct (is_Exception e); cbn [snd];
      repeat (eapply extends_loop_trans;
        [|first [apply extends_loop_emit; reflexivity | apply extends_loop_eprint]]);
      apply extends_loop_refl.
Qed.

Lemma serve_forever_extends H httpd evs p :
  extends_loop (emit EvSelect p) (TCPServer.serve_forever H httpd evs p).2.
Proof.
  revert p. induction evs as [|ev evs IH]; intros p; cbn [TCPServer.serve_forever].
  - apply extends_loop_refl.
  - destruct ev as [|c|errno|e].
    + eapply extends_loop_trans; [|apply IH]. apply extends_loop_emit. reflexivity.
    + pose proof (handle_request_extends H c (emit EvSelect p)) as Hq.
      destruct (TCPServer._handle_request_noblock H c (emit EvSelect p)) as [[[]|e] q];
        cbn [snd] in *.
      * eapply extends_loop_trans; [exact Hq|].
        eapply extends_loop_trans; [|apply IH]. apply extends_loop_emit. reflexivity.
      * exact Hq.
    + eapply extends_loop_trans; [|apply IH]. apply extends_loop_emit. reflexivity.
    + apply extends_loop_refl.
Qed.

(** The handler of a connection raises only subclasses of [Exception],
    unless a signal interrupts it with something else. *)
Lemma handler_raises_exceptions L c e h :
  BaseRequestHandler.init (CORSRequestHandler.handle L (files c)) c = (Raise e, h) ->
  match interrupted c with Some e' => e = e' | None => is_Exception e = true end.
Proof.
  unfold BaseRequestHandler.init. destruct (interrupted c) as [e'|].
  - intros [= <- _]. reflexivity.
  - intros E.
    destruct (cors_handle_respects L (files c) (BaseRequestHandler.setup c)) as [_ Hr].
    { constructor. }
    rewrite E in Hr. exact Hr.
Qed.

Lemma handle_request_returns L c p :
  benign (Incoming c) ->
  (TCPServer._handle_request_noblock (CORSRequestHandler.handle L) c p).1 = Ok tt.
Proof.
  cbn [benign]. intros Hb.
  unfold TCPServer._handle_request_noblock, TCPServer.process_request,
    TCPServer.finish_request.
  destruct (BaseRequestHandler.init (CORSRequestHandler.handle L (files c)) c)
    as [[[]|e] h] eqn:E; [reflexivity|].
  apply handler_raises_exceptions in E.
  assert (He : is_Exception e = true).
  { destruct (interrupted c); [subst; exact Hb | exact E]. }
  rewrite He. reflexivity.
Qed.




(** *** The module body *)

(** The process once [TCPServer.init] has bound and activated the
    socket. *)
Lemma main_fails L evs p errno :
  bind_error "" PORT p = Some errno ->
  main L evs p =
  (Died (OSError errno),
   {| sys := {| sockets := sockets (sys p)
                  ++ [{| family := AF_INET; type := SOCK_STREAM; state := Closed |}];
                refuse_bind := refuse_bind (sys p) |};
      stdout := stdout p; p_stderr := p_stderr p;
      log := log p ++ [EvSocket (next_fd p) AF_INET SOCK_STREAM;
                       EvBind (next_fd p) "" PORT; EvClose (next_fd p)] |}).
Proof. intros Hb. unfold main. rewrite (init_fails "" PORT p errno Hb). reflexivity. Qed.

Lemma main_serves L evs p :
  bind_error "" PORT p = None ->
  exists q post,
    TCPServer.serve_forever (CORSRequestHandler.handle L)
      {| socket := next_fd p; server_address := ("", PORT) |} evs
      (print startup_line (TCPServer.init ("", PORT) p).2) = ((main L evs p).1, q) /\
    sockets (sys q) = sockets (sys p) ++ [listening "" PORT] /\
    stdout q = stdout p ++ [startup_line +:+ Py.LF] /\
    log q = log p ++ [EvSocket (next_fd p) AF_INET SOCK_STREAM;
                      EvBind (next_fd p) "" PORT;
                      EvListen (next_fd p) TCPServer.request_queue_size;
                      EvPrint startup_line; EvSelect] ++ post /\
    Forall (fun e => in_loop e = true) post /\
    (main L evs p).2 =
      match (main L evs p).1 with
      | Serving => q
      | Died _ => os_close (next_fd p) q
      end.
Proof.
  intros Hb. unfold main. rewrite (init_binds "" PORT p Hb). cbn [snd].
  match goal with
  | |- context [TCPServer.serve_forever ?H ?s evs ?p2] =>
      pose proof (serve_forever_extends H s evs p2) as Hx;
      destruct (TCPServer.serve_forever H s evs p2) as [o q]
  end.
  cbn [snd] in Hx. destruct Hx as (Hsys & Hout & post & Hlog & Hpost).
  exists q, post. split.
  - destruct o; reflexivity.
  - split; [rewrite Hsys; reflexivity|].
    split; [rewrite Hout; reflexivity|].
    split.
    + rewrite Hlog. unfold print, emit. cbn [log]. rewrite <- !app_assoc. reflexivity.
    + split; [exact Hpost|]. destruct o; reflexivity.
Qed.

(** The output and the events of a run in which the address is
    granted. *)
Lemma main_trace L evs p :
  bind_error "" PORT p = None ->
  stdout (main L evs p).2 = stdout p ++ [startup_line +:+ Py.LF] /\
  (exists post,
     log (main L evs p).2 =
       log p ++ [EvSocket (next_fd p) AF_INET SOCK_STREAM;
                 EvBind (next_fd p) "" PORT;
                 EvListen (next_fd p) TCPServer.request_queue_size;
                 EvPrint startup_line; EvSelect] ++ post /\
     Forall (fun e => match e with EvPrint _ => False | _ => True end) post).
Proof.
  intros Hb.
  destruct (main_serves L evs p Hb) as (q & post & _ & _ & Hout & Hlog & Hpost & Hmain).
  assert (Hin : Forall (fun e => match e with EvPrint _ => False | _ => True end) post).
  { eapply Forall_impl; [exact Hpost|]. intros [] He; (discriminate || exact Logic.I). }
  rewrite Hmain. split.
  - destruct ((main L evs p).1); [exact Hout|].
    unfold os_close, emit. cbn [sys].
    destruct (sockets (sys q) !! next_fd p); exact Hout.
  - destruct ((main L evs p).1).
    + exists post. split; [exact Hlog | exact Hin].
    + exists (post ++ [EvClose (next_fd p)]). split.
      * assert (Hl : log (os_close (next_fd p) q) = log q ++ [EvClose (next_fd p)]).
        { unfold os_close, emit. cbn [sys log].
          destruct (sockets (sys q) !! next_fd p); reflexivity. }
        rewrite Hl, Hlog. rewrite <- !app_assoc. reflexivity.
      * apply Forall_app. split; [exact Hin | repeat constructor].
Qed.

(** ** The claims *)

(** C1, as amended.  The header-finalization step of the handler,
    [CORSRequestHandler.end_headers], appends the two headers
    [Access-Control-Allow-Origin: *] and [Access-Control-Allow-Methods: GET]
    and the blank line to the buffered head and sends it, whenever heads
    are sent for the request (its recorded version is not HTTP/0.9); for
    an HTTP/0.9 request it sends and changes nothing.  On every path of
    the handler, success or error, each head written to the client ends
    with the two headers and the blank line. *)
Theorem C1_cors_headers_end_every_head :
  (forall h, sends_heads h = true ->
     CORSRequestHandler.end_headers h =
     (Ok tt,
      set_headers_buffer (Some [])
        (set_wfile
           (wfile h ++ [Head (Py.concat (default [] (_headers_buffer h)
                                           ++ [acao_line; acam_line; Py.CRLF]))]) h))) /\
  (forall h, sends_heads h = false -> CORSRequestHandler.end_headers h = (Ok tt, h)) /\
  (forall L c, Forall cors_terminated (respond L c)).
Proof.
  split; [exact cors_end_headers_run|]. split; [exact cors_end_headers_quiet|].
  intros L c. unfold respond.
  destruct (cors_handle_respects L (files c) (BaseRequestHandler.setup c)) as [H _].
  - constructor.
  - exact H.
Qed.

(** C1, witness: the head of the reply to [GET /index.html HTTP/1.0]. *)
Lemma C1_witness :
  Forall cors_terminated
    (respond sample_lib (request sample_files "GET /index.html HTTP/1.0" [])).
Proof.
  apply (proj2 (proj2 C1_cors_headers_end_every_head)).
Defined.

(** C1, counterexample: the HTTP/0.9 request [GET /index.html] is
    answered with the bytes of the file and nothing else, so the
    response carries neither header. *)
Lemma C1_counterexample :
  respond sample_lib (request sample_files "GET /index.html" []) = [Body "<h1>hi</h1>"] /\
  ~ carries "Access-Control-Allow-Origin" "*"
      (respond sample_lib (request sample_files "GET /index.html" [])) /\
  ~ carries "Access-Control-Allow-Methods" "GET"
      (respond sample_lib (request sample_files "GET /index.html" [])).
Proof.
  assert (E : respond sample_lib (request sample_files "GET /index.html" [])
              = [Body "<h1>hi</h1>"]) by (vm_compute; reflexivity).
  rewrite E. split; [reflexivity|].
  split; intros (pre & post & Hin); apply list_elem_of_singleton in Hin; discriminate.
Qed.













(** C4.  For every environment, the first two things the program does
    are to create an IPv4 stream (TCP) socket and to bind it to the empty
    host, which names every interface, and port 8000; it makes no other
    call of [bind], and nothing it reads can change the port.  When the
    system grants the address the socket is put in the listening state
    on that address. *)
Theorem C4_binds_all_interfaces_port_8000 L evs p :
  PORT = 8000 /\ is_wildcard "" = true /\
  (exists rest,
     log (main L evs p).2 =
       log p ++ EvSocket (next_fd p) AF_INET SOCK_STREAM
             :: EvBind (next_fd p) "" 8000 :: rest /\
     Forall (fun e => match e with EvBind _ _ _ | EvSocket _ _ _ => False | _ => True end)
       rest) /\
  (bind_error "" 8000 p = None ->
   (TCPServer.init ("", PORT) p).1
     = Ok {| socket := next_fd p; server_address := ("", 8000) |} /\
   sockets (sys (TCPServer.init ("", PORT) p).2)
     = sockets (sys p) ++ [listening "" 8000]).
Proof.
  split; [reflexivity|]. split; [reflexivity|]. split.
  - destruct (init_cases "" PORT p) as [[errno Hb]|Hb].
    + rewrite (main_fails L evs p errno Hb). cbn [snd log].
      exists [EvClose (next_fd p)]. split; [reflexivity|]. repeat constructor.
    + destruct (main_serves L evs p Hb) as (q & post & _ & _ & _ & Hlog & Hpost & Hmain).
      rewrite Hmain.
      assert (Hin : Forall (fun e => match e with
                                     | EvBind _ _ _ | EvSocket _ _ _ => False
                                     | _ => True end) post).
      { eapply Forall_impl; [exact Hpost|]. intros [] He; (discriminate || exact Logic.I). }
      destruct ((main L evs p).1).
      * exists ([EvListen (next_fd p) TCPServer.request_queue_size;
                 EvPrint startup_line; EvSelect] ++ post).
        split; [rewrite Hlog; reflexivity|].
        repeat (constructor; [exact Logic.I|]). exact Hin.
      * exists ([EvListen (next_fd p) TCPServer.request_queue_size;
                 EvPrint startup_line; EvSelect] ++ post ++ [EvClose (next_fd p)]).
        split.
        -- assert (Hl : log (os_close (next_fd p) q) = log q ++ [EvClose (next_fd p)]).
           { unfold os_close, emit. cbn [sys log].
             destruct (sockets (sys q) !! next_fd p); reflexivity. }
           rewrite Hl, Hlog. rewrite <- !app_assoc. reflexivity.
        -- repeat (constructor; [exact Logic.I|]).
           apply Forall_app. split; [exact Hin | repeat constructor].
  - intros Hb. rewrite (init_binds "" PORT p Hb). split; reflexivity.
Qed.

(** C4, witness: on a machine without sockets the program's socket gets
    descriptor 0 and listens on port 8000 of every interface. *)
Lemma C4_witness :
  (TCPServer.init ("", PORT) (spawn sample_machine)).1
    = Ok {| socket := 0%nat; server_address := ("", 8000) |} /\
  sockets (sys (TCPServer.init ("", PORT) (spawn sample_machine)).2)
    = [listening "" 8000].
Proof.
  apply (proj2 (proj2 (proj2
           (C4_binds_all_interfaces_port_8000 sample_lib [] (spawn sample_machine))))).
  reflexivity.
Defined.

(** C5.  When the system refuses the address (it is in use, or the
    process may not bind it), the program dies with that [OSError] after
    one call of [bind]: it closes its socket, prints nothing and never
    enters the loop.  A second instance started on the machine of an
    instance that is serving dies with [EADDRINUSE], prints nothing, and
    leaves every socket of the machine, the listening socket of the first
    instance among them, as it was. *)
Theorem C5_bind_failure_is_fatal :
  (forall L evs p errno,
     bind_error "" PORT p = Some errno ->
     (main L evs p).1 = Died (OSError errno) /\
     stdout (main L evs p).2 = stdout p /\
     log (main L evs p).2 =
       log p ++ [EvSocket (next_fd p) AF_INET SOCK_STREAM;
                 EvBind (next_fd p) "" PORT; EvClose (next_fd p)]) /\
  (forall L evs evs' p,
     (main L evs p).1 = Serving ->
     sockets (sys (main L evs p).2) !! next_fd p = Some (listening "" PORT) /\
     (main L evs' (spawn (sys (main L evs p).2))).1 = Died (OSError "EADDRINUSE") /\
     stdout (main L evs' (spawn (sys (main L evs p).2))).2 = [] /\
     (forall fd s,
        sockets (sys (main L evs p).2) !! fd = Some s ->
        sockets (sys (main L evs' (spawn (sys (main L evs p).2))).2) !! fd = Some s)).
Proof.
  split.
  - intros L evs p errno Hb. rewrite (main_fails L evs p errno Hb).
    split; [reflexivity|]. split; reflexivity.
  - intros L evs evs' p Hserv.
    destruct (init_cases "" PORT p) as [[errno Hb]|Hb].
    { rewrite (main_fails L evs p errno Hb) in Hserv. discriminate. }
    destruct (main_serves L evs p Hb) as (q & post & _ & Hsock & _ & _ & _ & Hmain).
    rewrite Hserv in Hmain. rewrite Hmain.
    assert (Hlook : sockets (sys q) !! next_fd p = Some (listening "" PORT)).
    { rewrite Hsock. apply list_lookup_middle. reflexivity. }
    split; [exact Hlook|].
    assert (Hb2 : bind_error "" PORT (spawn (sys q)) = Some "EADDRINUSE").
    { unfold bind_error. cbn [spawn sys]. rewrite Hsock, existsb_app. cbn [existsb].
      replace (clashes AF_INET SOCK_STREAM "" PORT (listening "" PORT)) with true
        by (vm_compute; reflexivity).
      rewrite orb_true_r. reflexivity. }
    rewrite (main_fails L evs' (spawn (sys q)) "EADDRINUSE" Hb2). cbn [fst snd stdout sys sockets].
    split; [reflexivity|]. split; [reflexivity|].
    intros fd s Hfd. apply lookup_app_l_Some. exact Hfd.
Qed.

(** C5, witness: port 8000 is held by a listening socket of the
    machine. *)
Lemma C5_witness :
  (main sample_lib []
     (spawn {| sockets := [listening "" 8000]; refuse_bind := fun _ _ => None |})).1
    = Died (OSError "EADDRINUSE") /\
  stdout (main sample_lib []
            (spawn {| sockets := [listening "" 8000]; refuse_bind := fun _ _ => None |})).2
    = [] /\
  log (main sample_lib []
         (spawn {| sockets := [listening "" 8000]; refuse_bind := fun _ _ => None |})).2
    = [EvSocket 1 AF_INET SOCK_STREAM; EvBind 1 "" PORT; EvClose 1].
Proof.
  apply (proj1 C5_bind_failure_is_fatal sample_lib []
           (spawn {| sockets := [listening "" 8000]; refuse_bind := fun _ _ => None |})
           "EADDRINUSE").
  reflexivity.
Defined.

(** C8.  When the system grants the address, the program writes exactly
    one line to standard output, whatever happens in the loop afterwards;
    the line ends with the port bound; and it is printed after the socket
    is bound and listening and before the first [select] of the loop, no
    other print following it. *)
Theorem C8_one_line_before_the_loop L evs p :
  bind_error "" PORT p = None ->
  stdout (main L evs p).2 = stdout p ++ [startup_line +:+ Py.LF] /\
  (exists pre, startup_line = pre +:+ Py.str_of_int PORT) /\
  (exists post,
     log (main L evs p).2 =
       log p ++ [EvSocket (next_fd p) AF_INET SOCK_STREAM;
                 EvBind (next_fd p) "" PORT;
                 EvListen (next_fd p) TCPServer.request_queue_size;
                 EvPrint startup_line; EvSelect] ++ post /\
     Forall (fun e => match e with EvPrint _ => False | _ => True end) post).
Proof.
  intros Hb. destruct (main_trace L evs p Hb) as [Hout Hlog].
  split; [exact Hout|]. split; [|exact Hlog].
  exists "Serving at http://localhost:". reflexivity.
Qed.

(** C8, witness: a run in which two connections are served. *)
Lemma C8_witness :
  stdout (main sample_lib
            [Incoming (request sample_files "GET /index.html HTTP/1.0" []);
             Incoming (request sample_files "GET /missing HTTP/1.0" [])]
            (spawn sample_machine)).2
  = ["Serving at http://localhost:8000" +:+ Py.LF].
Proof.
  apply (C8_one_line_before_the_loop sample_lib
           [Incoming (request sample_files "GET /index.html HTTP/1.0" []);
            Incoming (request sample_files "GET /missing HTTP/1.0" [])]
           (spawn sample_machine)).
  reflexivity.
Defined.

(** C9.  The line is [Serving at http://localhost:8000]: it names
    [localhost], while the host that the socket is bound to is the empty
    string.  The line is printed whenever the address is granted. *)
Theorem C9_startup_line_names_localhost :
  startup_line = "Serving at http://localhost:8000" /\
  (forall L evs p,
     EvBind (next_fd p) "" 8000 ∈ log (main L evs p).2) /\
  (forall L evs p,
     bind_error "" PORT p = None ->
     EvPrint "Serving at http://localhost:8000" ∈ log (main L evs p).2 /\
     ("Serving at http://localhost:8000" +:+ Py.LF) ∈ stdout (main L evs p).2).
Proof.
  split; [reflexivity|]. split.
  - intros L evs p. destruct (init_cases "" PORT p) as [[errno Hb]|Hb].
    + rewrite (main_fails L evs p errno Hb). cbn [snd log].
      rewrite elem_of_app, !elem_of_cons. right. right. left. reflexivity.
    + destruct (main_trace L evs p Hb) as (_ & post & Hlog & _).
      rewrite Hlog. rewrite !elem_of_app, !elem_of_cons. right. left. right. left.
      reflexivity.
  - intros L evs p Hb.
    destruct (main_trace L evs p Hb) as (Hout & post & Hlog & _).
    split.
    + rewrite Hlog. rewrite !elem_of_app, !elem_of_cons.
      right. left. right. right. right. left. reflexivity.
    + rewrite Hout. rewrite elem_of_app, list_elem_of_singleton. right. reflexivity.
Qed.

(** C9, witness: the output of a run on a machine without sockets. *)
Lemma C9_witness :
  EvPrint "Serving at http://localhost:8000"
    ∈ log (main sample_lib [] (spawn sample_machine)).2 /\
  ("Serving at http://localhost:8000" +:+ Py.LF)
    ∈ stdout (main sample_lib [] (spawn sample_machine)).2.
Proof.
  apply (proj2 (proj2 C9_startup_line_names_localhost) sample_lib [] (spawn sample_machine)).
  reflexivity.
Defined.

(** C10.  When the body of the [with] statement is left by an
    exception, whether raised by a signal in [select] or let through from
    the handling of a request, the listening socket is closed: closing it
    is the last thing the process does, and the socket is in the closed
    state when the process dies. *)
Theorem C10_socket_closed_on_exit L evs p e :
  bind_error "" PORT p = None ->
  (main L evs p).1 = Died e ->
  state <$> sockets (sys (main L evs p).2) !! next_fd p = Some Closed /\
  last (log (main L evs p).2) = Some (EvClose (next_fd p)).
Proof.
  intros Hb Hd.
  destruct (main_serves L evs p Hb) as (q & post & _ & Hsock & _ & _ & _ & Hmain).
  rewrite Hd in Hmain. rewrite Hmain.
  assert (Hlook : sockets (sys q) !! next_fd p = Some (listening "" PORT)).
  { rewrite Hsock. apply list_lookup_middle. reflexivity. }
  unfold os_close, emit. cbn [sys sockets log]. rewrite Hlook.
  unfold set_sockets. cbn [sys sockets log]. split.
  - rewrite list_lookup_insert_eq; [reflexivity|].
    apply lookup_lt_Some in Hlook. exact Hlook.
  - apply last_snoc.
Qed.

(** C10, witness: a keyboard interrupt while the server waits in
    [select], after one connection. *)
Lemma C10_witness :
  state <$> sockets (sys (main sample_lib
                            [Incoming (request sample_files "GET /index.html HTTP/1.0" []);
                             Signal KeyboardInterrupt]
                            (spawn sample_machine)).2) !! 0%nat = Some Closed /\
  last (log (main sample_lib
               [Incoming (request sample_files "GET /index.html HTTP/1.0" []);
                Signal KeyboardInterrupt]
               (spawn sample_machine)).2) = Some (EvClose 0).
Proof.
  apply (C10_socket_closed_on_exit sample_lib
           [Incoming (request sample_files "GET /index.html HTTP/1.0" []);
            Signal KeyboardInterrupt]
           (spawn sample_machine) KeyboardInterrupt).
  - reflexivity.
  - vm_compute. reflexivity.
Defined.

(** * Further properties *)

(** ** Responses of the handler *)




























(** *** Every method keeps the connection marked for closing *)

Create HintDb closed.

Lemma send_header_closed keyword value :
  String.eqb (Py.lower keyword) "connection"
  && String.eqb (Py.lower value) "keep-alive" = false ->
  respects closed (BaseHTTPRequestHandler.send_header keyword value).
Proof.
  intros Hk. unfold BaseHTTPRequestHandler.send_header.
  apply respects_bind; [apply respects_get | intros h0].
  apply respects_bind.
  - destruct (negb (String.eqb (request_version h0) "HTTP/0.9"));
      [|apply respects_ret].
    apply respects_modify. intros h Hh. exact Hh.
  - intros _. destruct (String.eqb (Py.lower keyword) "connection"); [|apply respects_ret].
    cbn [andb] in Hk. rewrite Hk.
    destruct (String.eqb (Py.lower value) "close"); [|apply respects_ret].
    apply respects_modify. intros h Hh. reflexivity.
Qed.

Ltac closed_step :=
  first
    [ assumption
    | solve [auto with closed]
    | apply respects_ret
    | apply respects_get
    | apply respects_modify; intros ? ?; first [assumption | reflexivity]
    | apply respects_raise; reflexivity
    | apply send_header_closed; reflexivity
    | match goal with
      | |- respects _ (if ?a && Py.str_geb BaseHTTPRequestHandler.protocol_version "HTTP/1.1"
                       then _ else _) =>
          change (Py.str_geb BaseHTTPRequestHandler.protocol_version "HTTP/1.1") with false;
          rewrite (andb_false_r a)
      | |- respects _ (if ?a && Py.str_geb BaseHTTPRequestHandler.protocol_version "HTTP/1.1"
                          && ?b
                       then _ else _) =>
          change (Py.str_geb BaseHTTPRequestHandler.protocol_version "HTTP/1.1") with false;
          rewrite (andb_false_r a); cbn [andb]
      | |- respects _ (if ?b then _ else _) => destruct b
      | |- respects _ (match ?x with _ => _ end) => destruct x
      | |- respects _ (let _ := _ in _) => cbv zeta
      end
    | apply respects_bind; [| intros ?] ].

Ltac closed_auto := repeat closed_step.

Lemma cors_end_headers_closed : respects closed CORSRequestHandler.end_headers.
Proof.
  intros h Hh. destruct (sends_heads h) eqn:Hs.
  - rewrite (cors_end_headers_run h Hs). split; [exact Hh | exact Logic.I].
  - rewrite (cors_end_headers_quiet h Hs). split; [exact Hh | exact Logic.I].
Qed.

Lemma log_message_closed L message :
  respects closed (BaseHTTPRequestHandler.log_message L message).
Proof. apply respects_modify. intros h Hh. exact Hh. Qed.

Lemma buffer_append_closed line :
  respects closed (BaseHTTPRequestHandler.buffer_append line).
Proof. apply respects_modify. intros h Hh. exact Hh. Qed.

Lemma wfile_write_closed data :
  respects closed (BaseHTTPRequestHandler.wfile_write data).
Proof. apply respects_modify. intros h Hh. exact Hh. Qed.

#[local] Hint Resolve cors_end_headers_closed log_message_closed
  buffer_append_closed wfile_write_closed : closed.

Lemma send_response_only_closed code message :
  respects closed (BaseHTTPRequestHandler.send_response_only code message).
Proof. unfold BaseHTTPRequestHandler.send_response_only. closed_auto. Qed.

#[local] Hint Resolve send_response_only_closed : closed.

Lemma send_response_closed L code message :
  respects closed (BaseHTTPRequestHandler.send_response L code message).
Proof.
  unfold BaseHTTPRequestHandler.send_response, BaseHTTPRequestHandler.log_request.
  closed_auto.
Qed.

#[local] Hint Resolve send_response_closed : closed.

Section InheritedClosed.
Context (L : Lib) (fs : filesystem) (eh : M unit).
Hypothesis eh_closed : respects closed eh.

Lemma send_error_closed code message explain :
  respects closed (BaseHTTPRequestHandler.send_error L eh code message explain).
Proof.
  unfold BaseHTTPRequestHandler.send_error, BaseHTTPRequestHandler.log_error.
  destruct (default ("???", "???") (BaseHTTPRequestHandler.responses code)).
  cbv zeta. closed_auto.
Qed.

Hint Resolve send_error_closed : closed.

Lemma parse_request_headers_closed hdrs :
  respects closed (BaseHTTPRequestHandler.parse_request_headers L eh hdrs).
Proof.
  unfold BaseHTTPRequestHandler.parse_request_headers,
    BaseHTTPRequestHandler.handle_expect_100.
  destruct hdrs; closed_auto.
Qed.

Hint Resolve parse_request_headers_closed : closed.

Lemma parse_request_closed hdrs :
  respects closed (BaseHTTPRequestHandler.parse_request L eh hdrs).
Proof.
  unfold BaseHTTPRequestHandler.parse_request. cbv zeta. closed_auto.
Qed.

Lemma readline_closed : respects closed BaseHTTPRequestHandler.readline.
Proof. unfold BaseHTTPRequestHandler.readline. closed_auto. Qed.

Hint Resolve parse_request_closed readline_closed : closed.

Lemma handle_one_request_closed do_GET do_HEAD :
  respects closed do_GET -> respects closed do_HEAD ->
  respects closed (BaseHTTPRequestHandler.handle_one_request L eh do_GET do_HEAD).
Proof.
  intros HG HH. unfold BaseHTTPRequestHandler.handle_one_request. cbv zeta.
  closed_auto.
Qed.

Lemma list_directory_closed p :
  respects closed (SimpleHTTPRequestHandler.list_directory L fs eh p).
Proof. unfold SimpleHTTPRequestHandler.list_directory. cbv zeta. closed_auto. Qed.

Hint Resolve list_directory_closed : closed.

Lemma send_head_closed : respects closed (SimpleHTTPRequestHandler.send_head L fs eh).
Proof. unfold SimpleHTTPRequestHandler.send_head. cbv zeta. closed_auto. Qed.

Lemma copyfile_closed source : respects closed (SimpleHTTPRequestHandler.copyfile source).
Proof. unfold SimpleHTTPRequestHandler.copyfile. closed_auto. Qed.

Hint Resolve send_head_closed copyfile_closed : closed.

Lemma do_GET_closed : respects closed (SimpleHTTPRequestHandler.do_GET L fs eh).
Proof. unfold SimpleHTTPRequestHandler.do_GET. closed_auto. Qed.

Lemma do_HEAD_closed : respects closed (SimpleHTTPRequestHandler.do_HEAD L fs eh).
Proof. unfold SimpleHTTPRequestHandler.do_HEAD. closed_auto. Qed.

End InheritedClosed.

Lemma cors_handle_one_request_closed L fs :
  respects closed (CORSRequestHandler.handle_one_request L fs).
Proof.
  exact (handle_one_request_closed L CORSRequestHandler.end_headers cors_end_headers_closed
           (CORSRequestHandler.do_GET L fs) (CORSRequestHandler.do_HEAD L fs)
           (do_GET_closed L fs CORSRequestHandler.end_headers cors_end_headers_closed)
           (do_HEAD_closed L fs CORSRequestHandler.end_headers cors_end_headers_closed)).
Qed.

(** X9.  A connection is served one request: whatever the request asks
    for ([Connection: keep-alive], HTTP/1.1), [handle_one_request] leaves
    the connection marked for closing, so that [handle] is the handling
    of the first request and the loop that follows it never runs. *)
Theorem one_request_per_connection L fs h :
  CORSRequestHandler.handle L fs h =
  CORSRequestHandler.handle_one_request L fs (set_close_connection true h) /\
  close_connection (CORSRequestHandler.handle L fs h).2 = true.
Proof.
  pose proof (cors_handle_one_request_closed L fs (set_close_connection true h) eq_refl)
    as [Hc _].
  assert (E : CORSRequestHandler.handle L fs h =
              CORSRequestHandler.handle_one_request L fs (set_close_connection true h)).
  { destruct (CORSRequestHandler.handle_one_request L fs (set_close_connection true h))
      as [[[]|e] h'] eqn:E.
    - apply cors_handle_returns; [exact E | exact Hc].
    - apply cors_handle_raises. exact E. }
  split; [exact E|]. rewrite E. exact Hc.
Qed.

Lemma cors_send_error_quiet L code message h :
  sends_heads h = false ->
  (200 <=? code) && negb ((code =? 204) || (code =? 205) || (code =? 304)) = true ->
  CORSRequestHandler.send_error L code (Some message) None h =
  (Ok tt, failed_quiet L code message h).
Proof.
  intros Hs Hc.
  unfold CORSRequestHandler.send_error, BaseHTTPRequestHandler.send_error.
  destruct (default ("???", "???") (BaseHTTPRequestHandler.responses code))
    as [shortmsg longmsg] eqn:Er.
  cbv zeta. cbn [from_option id].
  step.
  step_with ltac:(apply send_response_quiet; exact Hs).
  step_with ltac:(apply send_header_close_quiet; exact Hs).
  rewrite Hc.
  step_with ltac:(
    step_with ltac:(apply send_header_quiet; [reflexivity | exact Hs]);
    step_with ltac:(apply send_header_quiet; [reflexivity | exact Hs]);
    reflexivity).
  step_with ltac:(apply cors_end_headers_quiet; exact Hs).
  step. cbv beta iota.
  unfold failed_quiet. rewrite Er. cbv zeta. cbn [snd].
  match goal with
  | |- context [command (set_close_connection true ?X)] =>
      change (command (set_close_connection true X)) with (command h)
  end.
  unfold BaseHTTPRequestHandler.wfile_write, BaseHTTPRequestHandler.log_error,
    BaseHTTPRequestHandler.log_message, modify, ret.
  destruct (negb (bool_decide (command h = Some "HEAD"))
            && negb (String.eqb (error_page L code message longmsg) ""));
    reflexivity.
Qed.

Lemma failed_quiet_closes L code message h :
  close_connection (failed_quiet L code message h) = true.
Proof.
  unfold failed_quiet. cbv zeta.
  match goal with |- context [if ?b then _ else _] => destruct b end; reflexivity.
Qed.

Lemma failed_quiet_wfile L code message h :
  command h = None -> wfile h = [] ->
  wfile (failed_quiet L code message h) =
  let page := error_page L code message
                (default ("???", "???") (BaseHTTPRequestHandler.responses code)).2 in
  if String.eqb page "" then [] else [Body page].
Proof.
  intros Hc Hw. unfold failed_quiet. cbv zeta. rewrite Hc.
  rewrite bool_decide_eq_false_2 by discriminate. cbn [negb andb].
  destruct (String.eqb _ ""); cbn [negb]; unfold logged; proj; rewrite Hw; reflexivity.
Qed.

Lemma bind_assoc {A B C} (m : M A) (k1 : A -> M B) (k2 : B -> M C) h :
  bind (bind m k1) k2 h = bind m (fun a => bind (k1 a) k2) h.
Proof. unfold bind. destruct (m h) as [[a|e] h']; reflexivity. Qed.

(** [parse_request] on a request line of three words or more whose last
    word is no version. *)
Lemma parse_request_bad_version L eh hdrs h h1 words :
  Py.split_ws (Py.rstrip_crlf (raw_requestline h)) = words ->
  (3 <= List.length words)%nat ->
  BaseHTTPRequestHandler.parse_version (List.last words "") = None ->
  h1 = scanned h ->
  BaseHTTPRequestHandler.parse_request L eh hdrs h =
  (BaseHTTPRequestHandler.send_error L eh 400
     (Some ("Bad request version (" +:+ repr L (List.last words "") +:+ ")")) None;;
   ret false)%py h1.
Proof.
  intros Hw Hlen Hv Hh1. unfold BaseHTTPRequestHandler.parse_request.
  do 4 step. cbv beta zeta. proj. step. rewrite Hw.
  destruct words as [|a [|b [|c ws]]]; try (cbn [List.length] in Hlen; lia).
  change (List.length (a :: b :: c :: ws) =? 0)%nat with false.
  change (3 <=? List.length (a :: b :: c :: ws))%nat with true.
  cbv iota. rewrite Hv.
  match goal with
  | |- bind _ _ ?s = _ => replace s with h1 by (rewrite Hh1; reflexivity)
  end.
  rewrite bind_assoc. unfold bind.
  destruct (BaseHTTPRequestHandler.send_error L eh 400 _ None h1) as [[[]|e] h'];
    reflexivity.
Qed.

(** [parse_request] on a request line of three words or more whose last
    word is a version from 2.0 on. *)
Lemma parse_request_high_version L eh hdrs h h1 words major minor base :
  Py.split_ws (Py.rstrip_crlf (raw_requestline h)) = words ->
  (3 <= List.length words)%nat ->
  BaseHTTPRequestHandler.parse_version (List.last words "") = Some (major, minor, base) ->
  Py.pair_geb (major, minor) (2, 0) = true ->
  h1 = scanned h ->
  BaseHTTPRequestHandler.parse_request L eh hdrs h =
  (BaseHTTPRequestHandler.send_error L eh 505
     (Some ("Invalid HTTP version (" +:+ base +:+ ")")) None;;
   ret false)%py h1.
Proof.
  intros Hw Hlen Hv Hge Hh1. unfold BaseHTTPRequestHandler.parse_request.
  do 4 step. cbv beta zeta. proj. step. rewrite Hw.
  destruct words as [|a [|b [|c ws]]]; try (cbn [List.length] in Hlen; lia).
  change (List.length (a :: b :: c :: ws) =? 0)%nat with false.
  change (3 <=? List.length (a :: b :: c :: ws))%nat with true.
  cbv iota. rewrite Hv.
  change (Py.str_geb BaseHTTPRequestHandler.protocol_version "HTTP/1.1") with false.
  rewrite andb_false_r. cbv iota. rewrite bind_assoc. step. cbv beta. rewrite Hge.
  match goal with
  | |- bind _ _ ?s = _ => replace s with h1 by (rewrite Hh1; reflexivity)
  end.
  rewrite bind_assoc. unfold bind.
  destruct (BaseHTTPRequestHandler.send_error L eh 505 _ None h1) as [[[]|e] h'];
    reflexivity.
Qed.

(** [handle_one_request] when [parse_request] fails with an error
    response. *)
Lemma handle_one_request_rejected L eh do_GET do_HEAD r rest h code message h1 :
  rfile h = r :: rest ->
  Z.of_nat (String.length (in_line r)) <= 65536 ->
  in_line r <> "" ->
  BaseHTTPRequestHandler.parse_request L eh (in_headers r)
    (set_raw_requestline (in_line r) (set_rfile rest h)) =
  (BaseHTTPRequestHandler.send_error L eh code message None;; ret false)%py h1 ->
  BaseHTTPRequestHandler.handle_one_request L eh do_GET do_HEAD h =
  (BaseHTTPRequestHandler.send_error L eh code message None;; ret tt)%py h1.
Proof.
  intros Hr Hlen Hne Hp.
  unfold BaseHTTPRequestHandler.handle_one_request.
  step_with ltac:(unfold BaseHTTPRequestHandler.readline; step; rewrite Hr; step; reflexivity).
  step.
  apply Z.leb_le in Hlen. rewrite Z.leb_antisym in Hlen. apply negb_true_iff in Hlen.
  rewrite Hlen. apply String.eqb_neq in Hne. rewrite Hne.
  unfold bind at 1. rewrite Hp. unfold bind.
  destruct (BaseHTTPRequestHandler.send_error L eh code message None h1) as [[[]|e] h'];
    reflexivity.
Qed.

Lemma cors_handle_one_request_rejected L fs r rest h code message h1 :
  rfile h = r :: rest ->
  Z.of_nat (String.length (in_line r)) <= 65536 ->
  in_line r <> "" ->
  BaseHTTPRequestHandler.parse_request L CORSRequestHandler.end_headers (in_headers r)
    (set_raw_requestline (in_line r) (set_rfile rest h)) =
  (CORSRequestHandler.send_error L code message None;; ret false)%py h1 ->
  CORSRequestHandler.handle_one_request L fs h =
  (CORSRequestHandler.send_error L code message None;; ret tt)%py h1.
Proof.
  exact (handle_one_request_rejected L CORSRequestHandler.end_headers
           (CORSRequestHandler.do_GET L fs) (CORSRequestHandler.do_HEAD L fs)
           r rest h code message h1).
Qed.

Lemma words_of_nonempty line words :
  Py.split_ws (Py.rstrip_crlf line) = words -> (3 <= List.length words)%nat -> line <> "".
Proof. intros Hw Hlen ->. subst words. cbn in Hlen. lia. Qed.

(** The response to a request that [parse_request] rejects before it
    has accepted the version. *)
Lemma rejected_response L c r rest code message h1 :
  sends c = r :: rest ->
  Z.of_nat (String.length (in_line r)) <= 65536 ->
  in_line r <> "" ->
  (200 <=? code) && negb ((code =? 204) || (code =? 205) || (code =? 304)) = true ->
  h1 = scanned (set_raw_requestline (in_line r)
                  (set_rfile rest (set_close_connection true (BaseRequestHandler.setup c)))) ->
  BaseHTTPRequestHandler.parse_request L CORSRequestHandler.end_headers (in_headers r)
    (set_raw_requestline (in_line r)
       (set_rfile rest (set_close_connection true (BaseRequestHandler.setup c)))) =
  (CORSRequestHandler.send_error L code (Some message) None;; ret false)%py h1 ->
  respond L c =
  let page := error_page L code message
                (default ("???", "???") (BaseHTTPRequestHandler.responses code)).2 in
  if String.eqb page "" then [] else [Body page].
Proof.
  intros Hs Hlen Hne Hc Hh1 Hp.
  assert (Hsh : sends_heads h1 = false) by (rewrite Hh1; reflexivity).
  assert (Hcmd : command h1 = None) by (rewrite Hh1; reflexivity).
  assert (Hwf : wfile h1 = []) by (rewrite Hh1; reflexivity).
  clear Hh1.
  assert (E : CORSRequestHandler.handle L (files c) (BaseRequestHandler.setup c)
              = (Ok tt, failed_quiet L code message h1)).
  { apply cors_handle_returns; [|apply failed_quiet_closes].
    rewrite (cors_handle_one_request_rejected L (files c) r rest
               (set_close_connection true (BaseRequestHandler.setup c))
               code (Some message) h1 Hs Hlen Hne Hp).
    erewrite bind_run by exact (cors_send_error_quiet L code message h1 Hsh Hc).
    reflexivity. }
  unfold respond. rewrite E. cbn [snd].
  exact (failed_quiet_wfile L code message h1 Hcmd Hwf).
Qed.

Lemma wire_optional page : wire (if String.eqb page "" then [] else [Body page]) = page.
Proof.
  destruct (String.eqb page "") eqn:E.
  - apply String.eqb_eq in E. rewrite E. reflexivity.
  - cbn [wire]. apply string_app_nil_r.
Qed.

(** X10.  A request line of three words or more whose last word is not
    of the form [HTTP/<int>.<int>] is rejected while the handler still
    holds the default version HTTP/0.9, for which no head is sent: the
    client receives the page of the 400 error and nothing else, neither a
    status line nor the CORS headers. *)
Theorem bad_version_gets_a_bare_error_page L c r rest words :
  sends c = r :: rest ->
  Z.of_nat (String.length (in_line r)) <= 65536 ->
  Py.split_ws (Py.rstrip_crlf (in_line r)) = words ->
  (3 <= List.length words)%nat ->
  BaseHTTPRequestHandler.parse_version (List.last words "") = None ->
  wire (respond L c) =
    error_page L 400 ("Bad request version (" +:+ repr L (List.last words "") +:+ ")")
      "Bad request syntax or unsupported method" /\
  status_of (respond L c) = None /\
  Forall (fun x => match x with Head _ => False | Body _ => True end) (respond L c).
Proof.
  intros Hs Hlen Hw Hn Hv.
  set (h0 := set_raw_requestline (in_line r)
               (set_rfile rest (set_close_connection true (BaseRequestHandler.setup c)))).
  remember (scanned h0) as h1 eqn:Hh1.
  pose proof (rejected_response L c r rest 400
                ("Bad request version (" +:+ repr L (List.last words "") +:+ ")") h1
                Hs Hlen (words_of_nonempty _ _ Hw Hn) eq_refl Hh1
                (parse_request_bad_version L CORSRequestHandler.end_headers (in_headers r)
                   h0 h1 words Hw Hn Hv Hh1)) as E.
  cbv zeta in E. rewrite E.
  change (default ("???", "???") (BaseHTTPRequestHandler.responses 400)).2
    with "Bad request syntax or unsupported method".
  split; [apply wire_optional|].
  destruct (String.eqb _ ""); split; try reflexivity; repeat constructor.
Qed.

(** X10, witness: [GET /index.html HTTP/1.x] on the sample tree. *)
Lemma bad_version_gets_a_bare_error_page_witness :
  wire (respond sample_lib (request sample_files "GET /index.html HTTP/1.x" []))
  = "<p>Error code: 400</p><p>Message: Bad request version ('HTTP/1.x').</p>".
Proof.
  refine (proj1 (bad_version_gets_a_bare_error_page sample_lib
                   (request sample_files "GET /index.html HTTP/1.x" [])
                   {| in_line := "GET /index.html HTTP/1.x" +:+ Py.CRLF;
                      in_headers := Headers [] |}
                   [] ["GET"; "/index.html"; "HTTP/1.x"] _ _ _ _ _)).
  - reflexivity.
  - vm_compute. congruence.
  - vm_compute. reflexivity.
  - cbn [List.length]. lia.
  - vm_compute. reflexivity.
Defined.

(** X11.  A request line whose version is 2.0 or more is rejected in the
    same state: the client receives the page of the 505 error and nothing
    else, neither a status line nor the CORS headers. *)
Theorem high_version_gets_a_bare_error_page L c r rest words major minor base :
  sends c = r :: rest ->
  Z.of_nat (String.length (in_line r)) <= 65536 ->
  Py.split_ws (Py.rstrip_crlf (in_line r)) = words ->
  (3 <= List.length words)%nat ->
  BaseHTTPRequestHandler.parse_version (List.last words "") = Some (major, minor, base) ->
  Py.pair_geb (major, minor) (2, 0) = true ->
  wire (respond L c) =
    error_page L 505 ("Invalid HTTP version (" +:+ base +:+ ")")
      "Cannot fulfill request" /\
  status_of (respond L c) = None /\
  Forall (fun x => match x with Head _ => False | Body _ => True end) (respond L c).
Proof.
  intros Hs Hlen Hw Hn Hv Hge.
  set (h0 := set_raw_requestline (in_line r)
               (set_rfile rest (set_close_connection true (BaseRequestHandler.setup c)))).
  remember (scanned h0) as h1 eqn:Hh1.
  pose proof (rejected_response L c r rest 505
                ("Invalid HTTP version (" +:+ base +:+ ")") h1
                Hs Hlen (words_of_nonempty _ _ Hw Hn) eq_refl Hh1
                (parse_request_high_version L CORSRequestHandler.end_headers (in_headers r)
                   h0 h1 words major minor base Hw Hn Hv Hge Hh1)) as E.
  cbv zeta in E. rewrite E.
  change (default ("???", "???") (BaseHTTPRequestHandler.responses 505)).2
    with "Cannot fulfill request".
  split; [apply wire_optional|].
  destruct (String.eqb _ ""); split; try reflexivity; repeat constructor.
Qed.

(** X11, witness: [GET /index.html HTTP/2.0] on the sample tree. *)
Lemma high_version_gets_a_bare_error_page_witness :
  wire (respond sample_lib (request sample_files "GET /index.html HTTP/2.0" []))
  = "<p>Error code: 505</p><p>Message: Invalid HTTP version (2.0).</p>".
Proof.
  refine (proj1 (high_version_gets_a_bare_error_page sample_lib
                   (request sample_files "GET /index.html HTTP/2.0" [])
                   {| in_line := "GET /index.html HTTP/2.0" +:+ Py.CRLF;
                      in_headers := Headers [] |}
                   [] ["GET"; "/index.html"; "HTTP/2.0"] 2 0 "2.0" _ _ _ _ _ _)).
  - reflexivity.
  - vm_compute. congruence.
  - vm_compute. reflexivity.
  - cbn [List.length]. lia.
  - vm_compute. reflexivity.
  - reflexivity.
Defined.







(** ** Strings and paths *)

Lemma rev_onto_empty s acc : Py.rev_onto s acc = "" -> s = "" /\ acc = "".
Proof.
  revert acc. induction s as [|c s IH]; intros acc H; cbn [Py.rev_onto] in H.
  - split; [reflexivity | exact H].
  - apply IH in H as [_ H]. discriminate.
Qed.

Lemma rev_empty s : Py.rev s = "" -> s = "".
Proof. intros H. apply rev_onto_empty in H as [H _]. exact H. Qed.

Lemma str_all_rev_onto f s acc :
  str_all f (Py.rev_onto s acc) = str_all f s && str_all f acc.
Proof.
  revert acc. induction s as [|c s IH]; intros acc; cbn [Py.rev_onto str_all].
  - reflexivity.
  - rewrite IH. cbn [str_all]. destruct (f c), (str_all f s); reflexivity.
Qed.

Lemma str_all_rev f s : str_all f (Py.rev s) = str_all f s.
Proof. unfold Py.rev. rewrite str_all_rev_onto. cbn [str_all]. apply andb_true_r. Qed.

Lemma lstrip_by_empty f s : Py.lstrip_by f s = "" <-> str_all f s = true.
Proof.
  induction s as [|c s IH]; cbn [Py.lstrip_by str_all].
  - split; reflexivity.
  - destruct (f c); cbn [andb]; [exact IH | split; discriminate].
Qed.

(** A word that starts with a slash has a directory part. *)
Lemma dirname_of_absolute w : SimpleHTTPRequestHandler.dirname (String "/" w) <> "".
Proof.
  unfold SimpleHTTPRequestHandler.dirname. cbv zeta.
  set (t := Py.lstrip_by (fun c => negb (Ascii.eqb c "/")) (Py.rev (String "/" w))).
  assert (Ht : t <> "").
  { intros H. apply lstrip_by_empty in H. rewrite str_all_rev in H.
    cbn [str_all] in H. discriminate. }
  assert (Hh : Py.rev t <> "").
  { intros H. apply rev_empty in H. exact (Ht H). }
  destruct (negb (String.eqb (Py.rev t) "")
            && negb (String.eqb (Py.lstrip_slash (Py.rev t)) "")) eqn:E;
    [|exact Hh].
  apply andb_prop in E as [_ E]. apply negb_true_iff, String.eqb_neq in E.
  intros H. apply E. unfold Py.rstrip_by in H. apply rev_empty in H.
  apply lstrip_by_empty in H. rewrite str_all_rev in H.
  apply lstrip_by_empty. exact H.
Qed.

Lemma prefix_app p a x : String.prefix p a = true -> String.prefix p (a +:+ x) = true.
Proof.
  revert a. induction p as [|c p IH]; intros a H.
  - destruct (a +:+ x); reflexivity.
  - destruct a as [|d a]; [discriminate|].
    change (String d a +:+ x) with (String d (a +:+ x)).
    cbn [String.prefix] in *. destruct (ascii_dec c d); [|discriminate].
    apply IH, H.
Qed.

Lemma path_join_prefix p a b :
  Py.startswith b "/" = false ->
  String.prefix p a = true ->
  String.prefix p (SimpleHTTPRequestHandler.path_join a b) = true.
Proof.
  intros Hb Ha. unfold SimpleHTTPRequestHandler.path_join. rewrite Hb.
  destruct (String.eqb a "" || Py.endswith a "/"); apply prefix_app, Ha.
Qed.

Lemma translate_words_prefix p path words :
  String.prefix p path = true ->
  String.prefix p (SimpleHTTPRequestHandler.translate_words path words) = true.
Proof.
  revert path. induction words as [|w words IH]; intros path Hp;
    cbn [SimpleHTTPRequestHandler.translate_words]; [exact Hp|].
  destruct (negb (String.eqb (SimpleHTTPRequestHandler.dirname w) "")
            || String.eqb w "." || String.eqb w "..") eqn:E; [apply IH, Hp|].
  apply IH, path_join_prefix; [|exact Hp].
  apply orb_false_elim in E as [E _]. apply orb_false_elim in E as [E _].
  apply negb_false_iff, String.eqb_eq in E.
  destruct w as [|c w]; [reflexivity|].
  unfold Py.startswith. cbn [String.prefix].
  destruct (ascii_dec "/" c) as [<-|]; [|reflexivity].
  exfalso. exact (dirname_of_absolute w E).
Qed.

Lemma prefix_refl p : String.prefix p p = true.
Proof.
  induction p as [|c p IH]; [reflexivity|].
  cbn [String.prefix]. destruct (ascii_dec c c); [exact IH | congruence].
Qed.

Lemma prefix_translate_path L path :
  Py.startswith (SimpleHTTPRequestHandler.translate_path L path) (getcwd L) = true.
Proof.
  unfold SimpleHTTPRequestHandler.translate_path, Py.startswith. cbv zeta.
  match goal with |- context [if ?b then _ else _] => destruct b end.
  - apply prefix_app, translate_words_prefix, prefix_refl.
  - apply translate_words_prefix, prefix_refl.
Qed.

(** A word without a slash has no directory part. *)
Lemma dirname_of_plain w :
  str_all (fun c => negb (Ascii.eqb c "/")) w = true ->
  SimpleHTTPRequestHandler.dirname w = "".
Proof.
  intros Hw. unfold SimpleHTTPRequestHandler.dirname. cbv zeta.
  assert (E : Py.lstrip_by (fun c => negb (Ascii.eqb c "/")) (Py.rev w) = "").
  { apply lstrip_by_empty. rewrite str_all_rev. exact Hw. }
  rewrite E. reflexivity.
Qed.

(** The pieces that [split] cuts a string into hold no separator. *)
Lemma split_go_plain sep s cur :
  str_all (fun c => negb (Ascii.eqb c sep)) cur = true ->
  Forall (fun w => str_all (fun c => negb (Ascii.eqb c sep)) w = true)
    (Py.split_go sep s cur).
Proof.
  revert cur. induction s as [|c s IH]; intros cur Hc; cbn [Py.split_go].
  - constructor; [|constructor]. rewrite str_all_rev. exact Hc.
  - destruct (Ascii.eqb c sep) eqn:E.
    + constructor; [rewrite str_all_rev; exact Hc | apply IH; reflexivity].
    + apply IH. cbn [str_all]. rewrite E. exact Hc.
Qed.

Lemma filter_bool {A} (f : A -> bool) (l : list A) :
  filter (fun x => f x) l = List.filter f l.
Proof.
  induction l as [|x l IH]; [reflexivity|].
  rewrite filter_cons. cbn [List.filter]. rewrite IH.
  destruct (f x); destruct (decide _) as [H|H]; try reflexivity;
    exfalso; [apply H; exact Logic.I | exact H].
Qed.

Lemma filter_filter_andb {A} (f g : A -> bool) (l : list A) :
  List.filter g (List.filter f l) = List.filter (fun x => f x && g x) l.
Proof.
  induction l as [|x l IH]; [reflexivity|].
  cbn [List.filter]. destruct (f x); cbn [andb List.filter]; rewrite IH; reflexivity.
Qed.

Lemma Forall_filter_plain {A} (P : A -> Prop) (f : A -> bool) (l : list A) :
  Forall P l -> Forall P (List.filter f l).
Proof.
  induction 1 as [|x l Hx _ IH]; cbn [List.filter]; [constructor|].
  destruct (f x); [constructor; assumption | exact IH].
Qed.

(** The loop of [translate_path] over words without a slash: the words
    other than [.] and [..] are joined to the path, in their order. *)
Lemma translate_words_fold path words :
  Forall (fun w => str_all (fun c => negb (Ascii.eqb c "/")) w = true) words ->
  SimpleHTTPRequestHandler.translate_words path words =
  fold_left SimpleHTTPRequestHandler.path_join
    (List.filter (fun w => negb (String.eqb w ".") && negb (String.eqb w "..")) words)
    path.
Proof.
  intros Hw. revert path. induction Hw as [|w words Hp _ IH]; intros path;
    cbn [SimpleHTTPRequestHandler.translate_words List.filter]; [reflexivity|].
  rewrite (dirname_of_plain w Hp). cbn [String.eqb negb orb].
  destruct (String.eqb w "."); cbn [negb andb orb]; [apply IH|].
  destruct (String.eqb w ".."); cbn [negb andb fold_left]; apply IH.
Qed.

(** X13.  The name that [translate_path] makes of a request path is the
    current directory joined, one after the other, with the components
    of the normalised path that are neither empty nor [.] nor [..], and
    nothing else: the components joined hold no slash, so each names an
    entry of the directory reached so far, and the name starts with the
    current directory.  A final slash of the request path is kept. *)
Theorem translate_path_keeps_plain_components L path :
  let q := (Py.split1 "#" (Py.split1 "?" path).1).1 in
  let kept :=
    List.filter
      (fun w => negb (String.eqb w "") && (negb (String.eqb w ".") && negb (String.eqb w "..")))
      (Py.split "/" (normpath L (default (unquote L q) (unquote_strict L q)))) in
  SimpleHTTPRequestHandler.translate_path L path =
    fold_left SimpleHTTPRequestHandler.path_join kept (getcwd L)
    +:+ (if Py.endswith (Py.rstrip q) "/" then "/" else "") /\
  Forall (fun w => str_all (fun c => negb (Ascii.eqb c "/")) w = true
                   /\ w <> "" /\ w <> "." /\ w <> "..") kept /\
  Py.startswith (SimpleHTTPRequestHandler.translate_path L path) (getcwd L) = true.
Proof.
  intros q kept.
  assert (Hplain : Forall (fun w => str_all (fun c => negb (Ascii.eqb c "/")) w = true)
                     (Py.split "/" (normpath L (default (unquote L q) (unquote_strict L q))))).
  { apply split_go_plain. reflexivity. }
  split; [|split; [|apply prefix_translate_path]].
  - unfold SimpleHTTPRequestHandler.translate_path. cbv zeta. fold q.
    rewrite (filter_bool (fun w => negb (String.eqb w ""))).
    rewrite translate_words_fold by (apply Forall_filter_plain, Hplain).
    rewrite filter_filter_andb. fold kept.
    destruct (Py.endswith (Py.rstrip q) "/"); [reflexivity|].
    symmetry. apply string_app_nil_r.
  - subst kept. induction Hplain as [|w ws Hw _ IH]; cbn [List.filter]; [constructor|].
    destruct (String.eqb w "") eqn:E1; cbn [negb andb]; [exact IH|].
    destruct (String.eqb w ".") eqn:E2; cbn [negb andb]; [exact IH|].
    destruct (String.eqb w "..") eqn:E3; cbn [negb andb]; [exact IH|].
    constructor; [|exact IH].
    apply String.eqb_neq in E1, E2, E3. repeat split; assumption.
Qed.

(** ** The order of a listing *)







(** ** Connections and the end of the loop *)


(** The loop, after events that it survives, goes on with the events
    that follow. *)
Lemma serve_forever_app L httpd evs1 p :
  Forall benign evs1 ->
  exists q, forall evs2,
    TCPServer.serve_forever (CORSRequestHandler.handle L) httpd (evs1 ++ evs2) p =
    TCPServer.serve_forever (CORSRequestHandler.handle L) httpd evs2 q.
Proof.
  intros Hb. revert p. induction Hb as [|ev evs Hev _ IH]; intros p.
  - exists p. reflexivity.
  - destruct ev as [|c|errno|e]; [| | |destruct Hev].
    + destruct (IH (emit EvSelect p)) as [q Hq]. exists q. exact Hq.
    + pose proof (handle_request_returns L c (emit EvSelect p) Hev) as Hr.
      destruct (TCPServer._handle_request_noblock (CORSRequestHandler.handle L) c
                  (emit EvSelect p)) as [[[]|e] p'] eqn:E; [|discriminate].
      destruct (IH p') as [q Hq]. exists q. intros evs2.
      cbn [app TCPServer.serve_forever]. rewrite E. apply Hq.
    + destruct (IH (emit EvSelect p)) as [q Hq]. exists q. exact Hq.
Qed.

(** An event that the loop does not survive ends it there. *)
Lemma serve_forever_fatal L httpd ev evs p :
  ~ benign ev ->
  (exists e, (TCPServer.serve_forever (CORSRequestHandler.handle L) httpd (ev :: evs) p).1
             = Died e) /\
  TCPServer.serve_forever (CORSRequestHandler.handle L) httpd (ev :: evs) p =
  TCPServer.serve_forever (CORSRequestHandler.handle L) httpd [ev] p.
Proof.
  intros Hn. destruct ev as [|c|errno|e]; try (exfalso; apply Hn; exact Logic.I).
  - cbn [benign] in Hn.
    destruct (interrupted c) as [e|] eqn:Ei; [|exfalso; apply Hn; exact Logic.I].
    destruct (is_Exception e) eqn:He; [exfalso; apply Hn; reflexivity|].
    cbn [TCPServer.serve_forever].
    unfold TCPServer._handle_request_noblock, TCPServer.process_request,
      TCPServer.finish_request, BaseRequestHandler.init.
    rewrite Ei. cbv beta iota zeta. rewrite He.
    split; [exists e|]; reflexivity.
  - split; [exists e|]; reflexivity.
Qed.

(** X16.  The program serves until the first event that its loop does
    not survive, a signal while it waits or while it handles a
    connection, which raises something that is no subclass of
    [Exception]; it dies there, and the connections and signals that
    would have followed have no effect on what it did. *)
Theorem first_fatal_event_ends_the_program L evs1 ev evs2 p :
  Forall benign evs1 ->
  ~ benign ev ->
  (exists e, (main L (evs1 ++ ev :: evs2) p).1 = Died e) /\
  main L (evs1 ++ ev :: evs2) p = main L (evs1 ++ [ev]) p.
Proof.
  intros Hb Hn. unfold main.
  destruct (TCPServer.init ("", PORT) p) as [[httpd|e0] p1].
  - destruct (serve_forever_app L httpd evs1 (print startup_line p1) Hb) as [q Hq].
    rewrite (Hq (ev :: evs2)), (Hq [ev]).
    destruct (serve_forever_fatal L httpd ev evs2 q Hn) as [[e He] Heq].
    rewrite Heq in He |- *.
    destruct (TCPServer.serve_forever (CORSRequestHandler.handle L) httpd [ev] q)
      as [[|e'] p3]; [discriminate|].
    split; [exists e'|]; reflexivity.
  - split; [exists e0|]; reflexivity.
Qed.

(** X16, witness: a keyboard interrupt between two connections. *)
Lemma first_fatal_event_ends_the_program_witness :
  main sample_lib
    ([Incoming (request sample_files "GET /index.html HTTP/1.0" [])]
       ++ Signal KeyboardInterrupt
       :: [Incoming (request sample_files "GET /missing HTTP/1.0" [])])
    (spawn sample_machine)
  = main sample_lib
      ([Incoming (request sample_files "GET /index.html HTTP/1.0" [])]
         ++ [Signal KeyboardInterrupt])
      (spawn sample_machine).
Proof.
  refine (proj2 (first_fatal_event_ends_the_program sample_lib
                   [Incoming (request sample_files "GET /index.html HTTP/1.0" [])]
                   (Signal KeyboardInterrupt)
                   [Incoming (request sample_files "GET /missing HTTP/1.0" [])]
                   (spawn sample_machine) _ _)).
  - repeat constructor.
  - intros [].
Defined.

(** ** Errors that the handler does not catch *)

(** X17.  A GET for a name that is no directory and that [open] refuses
    with [ValueError] (a NUL byte in the name) or [UnicodeEncodeError] (a
    name that cannot be encoded) is answered with nothing at all: the
    handler catches [OSError] only, so it raises what [open] raised
    before it has sent a byte. *)
Theorem unopenable_name_gets_no_reply L c r rest target version hs e :
  sends c = r :: rest ->
  http1_request r "GET" target version hs ->
  isdir (files c)
    (SimpleHTTPRequestHandler.translate_path L
       (BaseHTTPRequestHandler.path_of_target target)) = false ->
  Py.endswith
    (SimpleHTTPRequestHandler.translate_path L
       (BaseHTTPRequestHandler.path_of_target target)) "/" = false ->
  open_rb (files c)
    (SimpleHTTPRequestHandler.translate_path L
       (BaseHTTPRequestHandler.path_of_target target)) = None ->
  open_err (files c)
    (SimpleHTTPRequestHandler.translate_path L
       (BaseHTTPRequestHandler.path_of_target target)) = e ->
  e = BadName \/ e = Unencodable ->
  (CORSRequestHandler.handle L (files c) (BaseRequestHandler.setup c)).1
    = Raise (exn_of_open_error e) /\
  respond L c = [].
Proof.
  intros Hs Hreq Hd Hsl Ho He Hk.
  assert (Hne : match e with NotOpened _ => False | _ => True end).
  { destruct Hk as [-> | ->]; exact Logic.I. }
  destruct (get_bad_name_response L c r rest target version hs Hs Hreq e
              Hd Hsl Ho He Hne) as [E1 E2].
  split; [exact E1 | exact E2].
Qed.

(** X17, witness: a request for [/a], a NUL byte, [b] on the sample
    tree. *)
Lemma unopenable_name_gets_no_reply_witness :
  (CORSRequestHandler.handle sample_lib sample_files
     (BaseRequestHandler.setup
        (request sample_files ("GET /a" +:+ String "000" "b HTTP/1.0") []))).1
    = Raise ValueError /\
  respond sample_lib (request sample_files ("GET /a" +:+ String "000" "b HTTP/1.0") []) = [].
Proof.
  apply (unopenable_name_gets_no_reply sample_lib
           (request sample_files ("GET /a" +:+ String "000" "b HTTP/1.0") [])
           {| in_line := ("GET /a" +:+ String "000" "b HTTP/1.0") +:+ Py.CRLF;
              in_headers := Headers [] |}
           [] ("/a" +:+ String "000" "b") "HTTP/1.0" [] BadName).
  - reflexivity.
  - repeat split; vm_compute; congruence.
  - vm_compute; reflexivity.
  - vm_compute; reflexivity.
  - vm_compute; reflexivity.
  - vm_compute; reflexivity.
  - left; reflexivity.
Defined.

(** X18.  A GET for a directory without index file whose listing page
    cannot be encoded in the encoding of the file system (its title, the
    unquoted path of the request, holds a lone surrogate) is answered
    with nothing at all: the page is encoded before the status line is
    sent, and the handler raises [UnicodeEncodeError]. *)
Theorem unencodable_listing_gets_no_reply L c r rest target version hs
    scheme netloc ppath query fragment names :
  sends c = r :: rest ->
  http1_request r "GET" target version hs ->
  isdir (files c)
    (SimpleHTTPRequestHandler.translate_path L
       (BaseHTTPRequestHandler.path_of_target target)) = true ->
  urlsplit L (BaseHTTPRequestHandler.path_of_target target)
    = (scheme, netloc, ppath, query, fragment) ->
  Py.endswith ppath "/" = true ->
  isfile (files c)
    (SimpleHTTPRequestHandler.path_join
       (SimpleHTTPRequestHandler.translate_path L
          (BaseHTTPRequestHandler.path_of_target target)) "index.html") = false ->
  isfile (files c)
    (SimpleHTTPRequestHandler.path_join
       (SimpleHTTPRequestHandler.translate_path L
          (BaseHTTPRequestHandler.path_of_target target)) "index.htm") = false ->
  listdir (files c)
    (SimpleHTTPRequestHandler.translate_path L
       (BaseHTTPRequestHandler.path_of_target target)) = Some names ->
  encode_fs L
    (SimpleHTTPRequestHandler.listing_page L (files c)
       (BaseHTTPRequestHandler.path_of_target target)
       (SimpleHTTPRequestHandler.translate_path L
          (BaseHTTPRequestHandler.path_of_target target))
       (SimpleHTTPRequestHandler.sort_lower names)) = None ->
  (CORSRequestHandler.handle L (files c) (BaseRequestHandler.setup c)).1
    = Raise UnicodeEncodeError /\
  respond L c = [].
Proof.
  intros Hs Hreq Hd Hu Hsl Hi1 Hi2 Hl He.
  pose proof (get_unencodable_run L c r rest target version hs Hs Hreq
                scheme netloc ppath query fragment names Hd Hu Hsl Hi1 Hi2 Hl He) as E.
  unfold respond. rewrite E. split; reflexivity.
Qed.

(** X18, witness: [GET /sub/?x=%ED%A0%80 HTTP/1.0] on the sample tree. *)
Lemma unencodable_listing_gets_no_reply_witness :
  (CORSRequestHandler.handle sample_lib sample_files
     (BaseRequestHandler.setup
        (request sample_files "GET /sub/?x=%ED%A0%80 HTTP/1.0" []))).1
    = Raise UnicodeEncodeError /\
  respond sample_lib (request sample_files "GET /sub/?x=%ED%A0%80 HTTP/1.0" []) = [].
Proof.
  apply (unencodable_listing_gets_no_reply sample_lib
           (request sample_files "GET /sub/?x=%ED%A0%80 HTTP/1.0" [])
           {| in_line := "GET /sub/?x=%ED%A0%80 HTTP/1.0" +:+ Py.CRLF;
              in_headers := Headers [] |}
           [] "/sub/?x=%ED%A0%80" "HTTP/1.0" [] "" "" "/sub/" "x=%ED%A0%80" ""
           ["b.txt"; "A.txt"; "a.txt"]).
  - reflexivity.
  - repeat split; vm_compute; congruence.
  - vm_compute; reflexivity.
  - vm_compute; reflexivity.
  - vm_compute; reflexivity.
  - vm_compute; reflexivity.
  - vm_compute; reflexivity.
  - vm_compute; reflexivity.
  - vm_compute; reflexivity.
Defined.
